(** * Geometry, rendering and the display registry of
      [wordfence/cli/scan/progress.py]

    The curses dashboard of the scanner is embedded in Rocq as pure
    functions over [Z] (Python's unbounded [int]); the steps that can raise
    return a [result]. *)

From Stdlib Require Import ZArith Lia List String Bool.
Import ListNotations.
Open Scope Z_scope.

(** ** Errors raised by the modelled code *)

Inductive py_error :=
  | ZeroDivisionError
  | OverflowError
  | ValueError (msg : string)
  | CursesError
  (** Text holding a character other than a printable ASCII one
      ([' '] to ['~']) or NUL: curses moves the cursor for tabs, newlines,
      backspaces and other control or non-ASCII characters in ways this
      embedding does not follow, so drawing such text is not modelled. *)
  | UnmodelledText.

Inductive result (A : Type) :=
  | Ok (a : A)
  | Err (e : py_error).
Arguments Ok {A} a.
Arguments Err {A} e.

Definition bind {A B} (r : result A) (k : A -> result B) : result B :=
  match r with
  | Ok a => k a
  | Err e => Err e
  end.

Notation "x <- r ;; k" := (bind r (fun x => k))
  (at level 61, r at next level, right associativity).

(** ** Module constants *)

(** [METRIC_BOX_WIDTH = 39]: the interior width of a metric box; the box
    takes two more columns for its borders. *)
Definition METRIC_BOX_WIDTH : Z := 39.

(** [ProgressDisplay.METRICS_PADDING] and [ProgressDisplay.METRICS_COUNT]. *)
Definition METRICS_PADDING : Z := 1.
Definition METRICS_COUNT : Z := 4.

(** ** Python's true division [a / b] on [int]s

    The result is the [float] nearest to the exact quotient, ties to even
    (CPython rounds [int / int] correctly), as a pair [(m, e)] standing for
    [m * 2^e] with [|m| < 2^53] (or [|m| = 2^53] after rounding up).
    [ZeroDivisionError] when [b = 0], [OverflowError] when the result is
    beyond the largest [float]; below [2^-1022] the precision shrinks
    (subnormals) down to [2^-1074]. *)

(** [n / d] rounded to the nearest integer, ties to even ([n >= 0], [d > 0]). *)
Definition round_half_even (n d : Z) : Z :=
  let q := n / d in
  let r := n mod d in
  if 2 * r <? d then q
  else if d <? 2 * r then q + 1
  else if Z.even q then q else q + 1.

Definition py_true_div (a b : Z) : result (Z * Z) :=
  if b =? 0 then Err ZeroDivisionError
  else if a =? 0 then Ok (0, 0)
  else
    let A := Z.abs a in
    let B := Z.abs b in
    (* [k = floor(log2(A / B))] *)
    let k := if B <=? A then Z.log2 (A / B)
             else - Z.log2_up ((B + A - 1) / A) in
    let e := Z.max (k - 52) (-1074) in
    let m := if 0 <=? e then round_half_even A (B * 2 ^ e)
             else round_half_even (A * 2 ^ (- e)) B in
    if (0 <=? e) && (2 ^ 1024 <=? m * 2 ^ e) then Err OverflowError
    else Ok (if Z.sgn a * Z.sgn b <? 0 then - m else m, e).

(** [math.ceil] and [int] (truncation) of the float [m * 2^e]. *)
Definition float_ceil (f : Z * Z) : Z :=
  let '(m, e) := f in
  if 0 <=? e then m * 2 ^ e else - ((- m) / 2 ^ (- e)).

Definition float_trunc (f : Z * Z) : Z :=
  let '(m, e) := f in
  if 0 <=? e then m * 2 ^ e else Z.quot m (2 ^ (- e)).

(** Python's [math.ceil(a / b)] on integers. *)
Definition py_ceil_div (a b : Z) : result Z :=
  f <- py_true_div a b ;; Ok (float_ceil f).

(** ** [ProgressDisplay.metric_boxes_per_row] *)

Definition metric_boxes_per_row (columns : Z) (padding : Z) : Z :=
  let per_row := columns / METRIC_BOX_WIDTH in
  if per_row =? 0 then 0
  else
    let display_length := (per_row * METRIC_BOX_WIDTH) + (padding * per_row - 1) in
    if display_length <=? columns then per_row else per_row - 1.

(** ** [LayoutValues] and [ProgressDisplay.get_layout_values]

    The banner height and the terminal size are passed resolved (in the
    source they default to the welcome banner and [os.get_terminal_size]). *)

Record LayoutValues := mkLayoutValues {
  lv_rows : Z;
  lv_cols : Z;
  lv_metrics_per_row : Z;
  lv_metric_rows : Z;
  lv_metric_height : Z;
  lv_banner_height : Z;
  lv_last_metric_line : Z
}.

Definition get_layout_values (worker_count banner_height cols rows : Z)
  : result LayoutValues :=
  let metric_height := METRICS_COUNT + 2 in
  let metrics_per_row := metric_boxes_per_row cols METRICS_PADDING in
  metric_rows <- py_ceil_div worker_count metrics_per_row ;;
  let padding := (if banner_height =? 0 then 0 else 1) + (metric_rows - 1) in
  let last_metric_line :=
    ((metric_height * metric_rows) + banner_height + padding) - 1 in
  Ok (mkLayoutValues rows cols metrics_per_row metric_rows
        metric_height banner_height last_metric_line).

(** [ProgressDisplay.requirements_met], with the banner height that
    [should_show_welcome_banner]/[get_welcome_banner] resolve to and the
    terminal size passed in. *)
Definition requirements_met (worker_count banner_height cols rows : Z)
  : result bool :=
  lv <- get_layout_values worker_count banner_height cols rows ;;
  Ok ((lv_last_metric_line lv <=? lv_rows lv)
      && (METRIC_BOX_WIDTH + 2 <? lv_cols lv)).

(** ** Boxes: [Box], [MetricBox], [BannerBox] *)

(** [Metric(label, value)]; [value] is already [str(value)]. *)
Record Metric := mkMetric { label : string; value : string }.

(** The two subclasses of [Box], with the data their overrides of
    [get_width], [get_height] and [draw_content] read.  A [BannerBox] takes
    its width from its parent window ([parent.getmaxyx()[1]]). *)
Inductive BoxKind :=
  | MetricKind (metrics : list Metric)
  | BannerKind (parent_cols : Z) (row_count : Z) (banner_rows : list string).

Record Box := mkBox {
  box_kind : BoxKind;
  border : bool;
  title : option string
}.

Definition get_width (b : Box) : Z :=
  match box_kind b with
  | MetricKind _ => METRIC_BOX_WIDTH
  | BannerKind cols _ _ => cols
  end.

Definition get_height (b : Box) : Z :=
  match box_kind b with
  | MetricKind ms => Z.of_nat (List.length ms)
  | BannerKind _ n _ => n
  end.

Definition compute_size (b : Box) : Z * Z :=
  let height := get_height b in
  let width := get_width b in
  if border b then (height + 2, width + 2) else (height, width).

Definition get_border_offset (b : Box) : Z := if border b then 1 else 0.

Definition slength (s : string) : Z := Z.of_nat (String.length s).

(** Drawing calls made on a box's curses window. *)
Inductive DrawOp :=
  | DrawBorder
  | AddStr (y x : Z) (s : string).

(** [enumerate] followed by the loop body, for the loops of [draw_content]. *)
Fixpoint draw_indexed {A} (f : Z -> A -> list DrawOp) (i : Z) (xs : list A)
  : list DrawOp :=
  match xs with
  | [] => []
  | x :: xs' => f i x ++ draw_indexed f (i + 1) xs'
  end.

Definition draw_content (b : Box) : list DrawOp :=
  match box_kind b with
  | MetricKind ms =>
      let width := get_width b in
      let offset := get_border_offset b in
      draw_indexed (fun index metric =>
        let line := index + offset in
        let value_offset := offset + width - slength (value metric) in
        [AddStr line offset (String.append (label metric) ":");
         AddStr line value_offset (value metric)]) 0 ms
  | BannerKind _ _ rows =>
      let offset := get_border_offset b in
      draw_indexed (fun index row => [AddStr (index + offset) offset row]) 0 rows
  end.

(** The title column chosen by [Box.render]; [int(...)] truncates. *)
Definition title_offset (width title_length : Z) : Z :=
  if title_length <? width then Z.quot (width - title_length) 2 else 0.

Definition render (b : Box) : list DrawOp :=
  let '(height, width) := compute_size b in
  (if border b then [DrawBorder] else [])
  ++ (match title b with
      | Some t => [AddStr 0 (title_offset width (slength t)) t]
      | None => []
      end)
  ++ draw_content b.

Fixpoint has_nul (s : string) : bool :=
  match s with
  | EmptyString => false
  | String c s' => (Ascii.nat_of_ascii c =? 0)%nat || has_nul s'
  end.

Definition printable_char (c : Ascii.ascii) : bool :=
  (32 <=? Ascii.nat_of_ascii c)%nat && (Ascii.nat_of_ascii c <=? 126)%nat.

Fixpoint all_printable (s : string) : bool :=
  match s with
  | EmptyString => true
  | String c s' => printable_char c && all_printable s'
  end.

(** The cell rule of [waddstr] for printable text of [n] characters at
    [(y, x)] on a window of [h] lines and [w] columns: the start must lie
    in the window, and the text must not run into the bottom-right cell
    (the cursor cannot advance past it); text reaching the end of a line
    wraps to the next one. *)
Definition addstr_ok (h w y x n : Z) : bool :=
  (0 <=? y) && (y <? h) && (0 <=? x) && (x <? w)
  && ((n =? 0) || (y * w + x + n <? h * w)).

(** [window.addstr(y, x, s)]: Python first converts [s], raising
    [ValueError] on an embedded NUL; then [wmove] fails outside the window,
    and the characters are written by the cell rule. *)
Definition addstr (h w y x : Z) (s : string) : result unit :=
  if has_nul s then Err (ValueError "embedded null character")
  else if negb ((0 <=? y) && (y <? h) && (0 <=? x) && (x <? w)) then Err CursesError
  else if negb (all_printable s) then Err UnmodelledText
  else if addstr_ok h w y x (slength s) then Ok tt else Err CursesError.

Fixpoint run_ops (h w : Z) (ops : list DrawOp) : result unit :=
  match ops with
  | [] => Ok tt
  | DrawBorder :: ops' => run_ops h w ops'
  | AddStr y x s :: ops' => _ <- addstr h w y x s ;; run_ops h w ops'
  end.

(** A curses window of [win_h] lines and [win_w] columns. *)
Record Window := mkWindow { win_h : Z; win_w : Z }.

(** [curses.newwin(height, width, 0, 0)] on a screen of [lines] lines and
    [cols] columns: the arguments must be C [int]s ([OverflowError]);
    ncurses refuses negative sizes, extends a size of [0] to the screen's
    edge and refuses sizes beyond 32767 (a [short]). *)
Definition newwin (lines cols height width : Z) : result Window :=
  if (height <? - 2 ^ 31) || (2 ^ 31 - 1 <? height)
     || (width <? - 2 ^ 31) || (2 ^ 31 - 1 <? width)
  then Err OverflowError
  else if (height <? 0) || (width <? 0) then Err CursesError
  else
    let h := if height =? 0 then lines else height in
    let w := if width =? 0 then cols else width in
    if (h <=? 0) || (32767 <? h) || (w <=? 0) || (32767 <? w) then Err CursesError
    else Ok (mkWindow h w).

(** [Box.__init__] on a screen of [lines] by [cols] ([curses.LINES],
    [curses.COLS]): [_initialize_window] then [render] on that window. *)
Definition box_init (lines cols : Z) (b : Box) : result (Box * Window) :=
  let '(height, width) := compute_size b in
  win <- newwin lines cols height width ;;
  _ <- run_ops (win_h win) (win_w win) (render b) ;;
  Ok (b, win).

(** [MetricBox.__init__(parent, metrics, title)]: stores the metrics and
    calls [Box.__init__] with a border. *)
Definition metric_box_init (lines cols : Z) (metrics : list Metric) (t : option string)
  : result (Box * Window) :=
  box_init lines cols (mkBox (MetricKind metrics) true t).

(** [ProgressDisplay._get_metrics]; the scan metrics arrive as the per-worker
    strings [str(counts[i])], [str(bytes[i])], [str(matches[i])] and
    [str(worker_index)]. *)
Definition get_metrics (count bytes matches index : string)
  : result (list Metric) :=
  let metrics := [mkMetric "Files Processed" count;
                  mkMetric "Bytes Processed" bytes;
                  mkMetric "Matches Found" matches;
                  mkMetric "Index" index] in
  if METRICS_COUNT <? Z.of_nat (List.length metrics)
  then Err (ValueError "Metrics count is out of sync")
  else Ok metrics.

(** ** [BoxLayout] *)

Record BoxLayout := mkBoxLayout {
  bl_lines : Z;
  bl_cols : Z;
  bl_padding : Z;
  bl_x : Z;
  bl_y : Z;
  bl_max_row_height : Z
}.

Definition new_layout (lines cols padding : Z) : BoxLayout :=
  mkBoxLayout lines cols padding 0 0 0.

(** [BoxLayout.position]: the new layout state and the [(y, x)] passed to
    [box.set_position]. *)
Definition position (l : BoxLayout) (b : Box) : BoxLayout * (Z * Z) :=
  let '(height, width) := compute_size b in
  let '(x, y, mrh) :=
    if bl_cols l - bl_x l <? width
    then (0, bl_y l + bl_max_row_height l + bl_padding l, 0)
    else (bl_x l, bl_y l, bl_max_row_height l) in
  (mkBoxLayout (bl_lines l) (bl_cols l) (bl_padding l)
     (x + width + bl_padding l) y (Z.max height mrh), (y, x)).

(** One positioning pass over [boxes] in order: for each box its position
    [(y, x)] and its full height. *)
Fixpoint layout_pass (l : BoxLayout) (boxes : list Box) : list (Z * Z * Z) :=
  match boxes with
  | [] => []
  | b :: bs =>
      let '(l', (y, x)) := position l b in
      (y, x, fst (compute_size b)) :: layout_pass l' bs
  end.

(** The last screen row covered by any placed box ([-1] if none). *)
Definition last_occupied_row (ps : list (Z * Z * Z)) : Z :=
  fold_left (fun m '(y, _, h) => Z.max m (y + h - 1)) ps (-1).

(** The boxes of [ProgressDisplay._display_metrics], in order: the banner
    box if there is one, then the metric boxes by worker index. *)
Definition display_boxes (banner : option Box) (metric_boxes : list Box)
  : list Box :=
  match banner with
  | Some bb => bb :: metric_boxes
  | None => metric_boxes
  end.

Definition display_layout (lines cols : Z) (banner : option Box)
    (metric_boxes : list Box) : list (Z * Z * Z) :=
  layout_pass (new_layout lines cols METRICS_PADDING)
    (display_boxes banner metric_boxes).

(** The boxes [ProgressDisplay] builds for a terminal of [cols] columns:
    a borderless banner of [b] rows (when [b > 0]) and [w] metric boxes,
    each holding the four metrics of [_get_metrics]. *)
Definition zero_metrics (i : nat) : list Metric :=
  [mkMetric "Files Processed" "0"; mkMetric "Bytes Processed" "0";
   mkMetric "Matches Found" "0"; mkMetric "Index" "0"].

Definition worker_boxes (w : nat) : list Box :=
  map (fun i => mkBox (MetricKind (zero_metrics i)) true (Some "Worker"%string)) (seq 0 w).

Definition banner_box (cols b : Z) : option Box :=
  if 0 <? b
  then Some (mkBox (BannerKind cols b (repeat ""%string (Z.to_nat b))) false None)
  else None.

Definition packed_last_row (w : nat) (b cols rows : Z) : Z :=
  last_occupied_row (display_layout rows cols (banner_box cols b) (worker_boxes w)).

Example pack_80 : packed_last_row 2 0 80 24 = 12.
Proof. reflexivity. Qed.
Example pack_200 : packed_last_row 5 7 200 24 = 20.
Proof. reflexivity. Qed.

(** ** [ProgressDisplay.scan_finished_handler]

    The placement of the summary: [vals] from [_get_layout_values] (the
    worker count is the number of metric boxes, the banner height that of
    the banner box or [0]), [results_length = len(messages.results)].
    The result is the chosen [vertical_offset], the block's [message_lines]
    and the drawing calls made on [stdscr]. *)

Definition exit_message : string := "Press any key to exit".

Inductive ScreenOp :=
  | Move (y x : Z)
  | ClrToBot
  | ScrAddStr (y x : Z) (s : string).

(** The calls on [stdscr], a window of [rows] by [cols]: [move] raises
    outside the window; [clrtobot] does not fail. *)
Fixpoint run_screen (rows cols : Z) (ops : list ScreenOp) : result unit :=
  match ops with
  | [] => Ok tt
  | Move y x :: ops' =>
      if (0 <=? y) && (y <? rows) && (0 <=? x) && (x <? cols)
      then run_screen rows cols ops' else Err CursesError
  | ClrToBot :: ops' => run_screen rows cols ops'
  | ScrAddStr y x s :: ops' => _ <- addstr rows cols y x s ;; run_screen rows cols ops'
  end.

(** [rows, cols = stdscr.getmaxyx()], so the layout values and [stdscr]
    share the screen size; [results] is [messages.results]. *)
Definition scan_finished_handler (worker_count banner_height cols rows : Z)
    (results : string) : result (Z * Z * list ScreenOp) :=
  vals <- get_layout_values worker_count banner_height cols rows ;;
  let vertical_offset := lv_last_metric_line vals + 1 in
  l1 <- py_ceil_div (slength results) (lv_cols vals) ;;
  l2 <- py_ceil_div (slength exit_message) (lv_cols vals) ;;
  let message_lines := l1 + l2 in
  let vertical_offset :=
    if lv_rows vals <? vertical_offset + message_lines
    then lv_rows vals - message_lines else vertical_offset in
  let ops := [Move vertical_offset 0; ClrToBot;
              ScrAddStr vertical_offset 0 results;
              ScrAddStr (vertical_offset + message_lines - 1) 0 exit_message] in
  _ <- run_screen rows cols ops ;;
  Ok (vertical_offset, message_lines, ops).

(** ** The module-level registry [_displays]

    A display is named by a number; [restored] logs, in order, the displays
    whose [end] ran [curses.endwin()]. *)

Record Registry := mkRegistry {
  displays : list nat;
  restored : list nat
}.

(** [ProgressDisplay.__init__]: [_displays.append(self)] comes first, so a
    display is registered even when [_setup_curses] raises afterwards. *)
Definition progress_display_init (d : nat) (st : Registry) : Registry :=
  mkRegistry (displays st ++ [d]) (restored st).

(** Python's [list.remove(x)]: drops the first occurrence, raises
    [ValueError] when there is none. *)
Fixpoint list_remove (d : nat) (xs : list nat) : result (list nat) :=
  match xs with
  | [] => Err (ValueError "list.remove(x): x not in list")
  | y :: ys =>
      if Nat.eqb y d then Ok ys
      else (ys' <- list_remove d ys ;; Ok (y :: ys'))
  end.

(** [ProgressDisplay.end]: [curses.endwin()] then [_displays.remove(self)]. *)
Definition display_end (d : nat) (st : Registry) : result Registry :=
  let st1 := mkRegistry (displays st) (restored st ++ [d]) in
  ds <- list_remove d (displays st1) ;;
  Ok (mkRegistry ds (restored st1)).

(** [for display in _displays: display.end()]: Python's list iterator reads
    [_displays[i]] afresh at each step, stopping once [i] reaches the
    current length, while the body removes from the same list.  The index
    grows at each step and the list never grows, so [fuel = len(_displays)]
    steps suffice. *)
Fixpoint iterate_end (fuel : nat) (i : nat) (st : Registry) : result Registry :=
  match fuel with
  | O => Ok st
  | S fuel' =>
      match nth_error (displays st) i with
      | None => Ok st
      | Some d => st' <- display_end d st ;; iterate_end fuel' (S i) st'
      end
  end.

Definition reset_terminal (st : Registry) : result Registry :=
  iterate_end (List.length (displays st)) 0 st.

(** ** The spec's panels-per-row formula, for comparison

    [metricPanelFullWidth] is the width of a metric box with its borders,
    [floor(cols / metricPanelFullWidth)] reduced by one if that many panels
    and the single-column gaps between them exceed [cols]. *)
Definition metric_panel_full_width : Z := METRIC_BOX_WIDTH + 2.

Definition panels_per_row_spec (cols : Z) : Z :=
  let k := cols / metric_panel_full_width in
  if cols <? k * metric_panel_full_width + (k - 1) * METRICS_PADDING
  then k - 1 else k.

(** ** [compute_center_offset] ([cols] passed, as [curses.COLS] by default)

    [int((cols - width) / 2)] divides in floating point. *)

Definition compute_center_offset (width cols : Z) : result Z :=
  if cols <? width then Ok 0
  else f <- py_true_div (cols - width) 2 ;; Ok (float_trunc f).

(** ** Rectangles placed by a [BoxLayout] pass

    Each placed box as [(y, x, height, width)]: the position from
    [layout_pass] beside the size from [compute_size]. *)
Definition layout_rects (l : BoxLayout) (boxes : list Box) : list (Z * Z * Z * Z) :=
  map (fun '((y, x, h), b) => (y, x, h, snd (compute_size b)))
    (combine (layout_pass l boxes) boxes).

(** Two rectangles share no screen cell. *)
Definition rects_disjoint (r1 r2 : Z * Z * Z * Z) : Prop :=
  let '(y1, x1, h1, w1) := r1 in
  let '(y2, x2, h2, w2) := r2 in
  y1 + h1 <= y2 \/ y2 + h2 <= y1 \/ x1 + w1 <= x2 \/ x2 + w2 <= x1.

(** ** [BannerBox.__init__(parent, banner)] *)

Definition banner_box_init (lines parent_cols row_count : Z) (rows : list string)
  : result (Box * Window) :=
  box_init lines parent_cols (mkBox (BannerKind parent_cols row_count rows) false None).

(** ** [BoxLayout.position] with its call [box.set_position(y, x)]

    [window.mvwin(y, x)] raises unless the window, of the size [newwin]
    gave it, lies wholly on the screen of [lines] by [cols]; in both
    callers the layout is built on [curses.LINES] and [curses.COLS]. *)
Definition mvwin_ok (lines cols y x h w : Z) : bool :=
  (0 <=? y) && (0 <=? x) && (y + h <=? lines) && (x + w <=? cols).

Definition window_size (lines cols : Z) (b : Box) : Z * Z :=
  let '(h, w) := compute_size b in
  (if h =? 0 then lines else h, if w =? 0 then cols else w).

Fixpoint layout_pass_checked (l : BoxLayout) (boxes : list Box)
  : result (list (Z * Z * Z)) :=
  match boxes with
  | [] => Ok []
  | b :: bs =>
      let '(l', (y, x)) := position l b in
      let '(h, w) := window_size (bl_lines l) (bl_cols l) b in
      if mvwin_ok (bl_lines l) (bl_cols l) y x h w
      then (rest <- layout_pass_checked l' bs ;; Ok ((y, x, fst (compute_size b)) :: rest))
      else Err CursesError
  end.

(** The positioning pass of [_display_metrics] on [curses.LINES] by
    [curses.COLS]. *)
Definition display_layout_checked (lines cols : Z) (banner : option Box)
    (metric_boxes : list Box) : result (list (Z * Z * Z)) :=
  layout_pass_checked (new_layout lines cols METRICS_PADDING)
    (display_boxes banner metric_boxes).

(** ** Text drawn by [render] *)

(** All text a list of drawing calls writes is printable ASCII. *)
Definition ops_printable (ops : list DrawOp) : Prop :=
  Forall (fun op => match op with
                    | AddStr _ _ s => all_printable s = true
                    | DrawBorder => True
                    end) ops.

(** The metric labels and values hold printable ASCII only. *)
Definition metrics_printable (ms : list Metric) : Prop :=
  Forall (fun m => all_printable (label m) = true /\ all_printable (value m) = true) ms.

(** ** The elements at even and odd positions of a list *)

Fixpoint evens {A} (xs : list A) : list A :=
  match xs with
  | x :: _ :: r => x :: evens r
  | [x] => [x]
  | [] => []
  end.

Fixpoint odds {A} (xs : list A) : list A :=
  match xs with
  | _ :: y :: r => y :: odds r
  | _ => []
  end.

(** ** [wordfence/cli/vulnscan/vulnscan.py]: the scanner calls of [invoke]

    The collaborators are taken as functions of the path (they are assumed
    not to raise): [WordpressSite(path).get_version()], [get_plugins()],
    [get_themes()], and [PluginLoader(d).load_all()] /
    [ThemeLoader(d).load_all()].  [invoke] is modelled by the sequence of
    calls it makes on the [VulnerabilityScanner] (logging omitted) and its
    return value. *)

Section VulnScan.

Variables Version Plugin Theme : Type.
Variable site_version : string -> Version.
Variable site_plugins : string -> list Plugin.
Variable site_themes : string -> list Theme.
Variable load_plugin_directory : string -> list Plugin.
Variable load_theme_directory : string -> list Theme.

Inductive ScanCall :=
  | ScanCore (v : Version)
  | ScanPlugin (p : Plugin)
  | ScanTheme (t : Theme).

(** The configuration [invoke] reads; [stdin_entries] is [None] when
    [io_manager.should_read_stdin()] is false, else the entries read. *)
Record VulnScanConfig := mkVulnScanConfig {
  trailing_arguments : list string;
  stdin_entries : option (list string);
  wordpress_path : list string;
  plugin_directory : list string;
  theme_directory : list string
}.

Definition scan_plugins (plugins : list Plugin) : list ScanCall := map ScanPlugin plugins.
Definition scan_themes (themes : list Theme) : list ScanCall := map ScanTheme themes.

Definition vuln_scan (path : string) (check_extensions : bool) : list ScanCall :=
  ScanCore (site_version path)
  :: (if check_extensions
      then scan_plugins (site_plugins path) ++ scan_themes (site_themes path)
      else []).

Definition scan_site (path : string) : list ScanCall := vuln_scan path true.

Definition scan_plugin_directory (directory : string) : list ScanCall :=
  scan_plugins (load_plugin_directory directory).

Definition scan_theme_directory (directory : string) : list ScanCall :=
  scan_themes (load_theme_directory directory).

Definition invoke (config : VulnScanConfig) : Z * list ScanCall :=
  (0,
   flat_map scan_site (trailing_arguments config)
   ++ (match stdin_entries config with
       | Some entries => flat_map scan_site entries
       | None => []
       end)
   ++ flat_map (fun path => vuln_scan path false) (wordpress_path config)
   ++ flat_map scan_plugin_directory (plugin_directory config)
   ++ flat_map scan_theme_directory (theme_directory config)).

Definition is_core_scan (c : ScanCall) : bool :=
  match c with ScanCore _ => true | _ => false end.

Definition is_plugin_scan (c : ScanCall) : bool :=
  match c with ScanPlugin _ => true | _ => false end.

Definition is_theme_scan (c : ScanCall) : bool :=
  match c with ScanTheme _ => true | _ => false end.

Definition site_paths (config : VulnScanConfig) : list string :=
  trailing_arguments config
  ++ match stdin_entries config with Some entries => entries | None => [] end.

End VulnScan.

(** * Properties *)

Lemma metric_box_width_pos : 0 < METRIC_BOX_WIDTH.
Proof. reflexivity. Qed.

(** *** The float quotient is exact enough below [2^53] *)

Lemma round_half_even_bound (n d : Z) :
  0 < d -> - d <= 2 * (n - round_half_even n d * d) <= d.
Proof.
  intros Hd. unfold round_half_even.
  pose proof (Z.div_mod n d ltac:(lia)) as Hdm.
  pose proof (Z.mod_pos_bound n d Hd) as Hmb.
  destruct (Z.ltb_spec (2 * (n mod d)) d); [nia |].
  destruct (Z.ltb_spec d (2 * (n mod d))); [nia |].
  destruct (Z.even (n / d)); nia.
Qed.

Lemma round_half_even_exact (n d : Z) :
  0 < d -> n mod d = 0 -> round_half_even n d * d = n.
Proof.
  intros Hd Hm. unfold round_half_even. rewrite Hm.
  destruct (Z.ltb_spec (2 * 0) d); [| lia].
  pose proof (Z.div_mod n d ltac:(lia)). lia.
Qed.

Lemma pow2_pos (k : Z) : 0 <= k -> 0 < 2 ^ k.
Proof. intros Hk. apply Z.pow_pos_nonneg; lia. Qed.

(** For [1 <= a, b <= 2^53] the float [a / b] is either exact with a
    non-negative exponent, or [m / 2^-e] with [m] within half a unit of
    [a * 2^-e / b], where [b < 2 * 2^-e] unless the quotient is exact. *)
Lemma py_true_div_small (a b : Z) :
  1 <= a <= 2 ^ 53 -> 1 <= b <= 2 ^ 53 ->
  exists m e, py_true_div a b = Ok (m, e) /\
    ((0 <= e /\ m * 2 ^ e * b = a) \/
     (e < 0 /\ - b <= 2 * (a * 2 ^ (- e) - m * b) <= b /\
      (b < 2 * 2 ^ (- e) \/ m * b = a * 2 ^ (- e)))).
Proof.
  intros Ha Hb. unfold py_true_div.
  destruct (Z.eqb_spec b 0) as [E | _]; [lia |].
  destruct (Z.eqb_spec a 0) as [E | _]; [lia |].
  rewrite (Z.abs_eq a), (Z.abs_eq b) by lia.
  assert (Hsg : (Z.sgn a * Z.sgn b <? 0) = false).
  { rewrite (Z.sgn_pos a), (Z.sgn_pos b) by lia. reflexivity. }
  rewrite Hsg.
  destruct (Z.leb_spec b a) as [Lba | Lab].
  - (* [b <= a]: [k = log2 (a / b) >= 0] *)
    set (q := a / b).
    assert (Hq : 1 <= q).
    { unfold q. apply Z.div_le_lower_bound; lia. }
    assert (Hqa : b * q <= a) by (unfold q; apply Z.mul_div_le; lia).
    assert (Hqa' : a < b * (q + 1)).
    { unfold q. pose proof (Z.div_mod a b ltac:(lia)).
      pose proof (Z.mod_pos_bound a b ltac:(lia)). lia. }
    set (k := Z.log2 q).
    assert (Hk0 : 0 <= k) by apply Z.log2_nonneg.
    destruct (Z.log2_spec q ltac:(lia)) as [Hk1 Hk2]. fold k in Hk1, Hk2.
    rewrite Z.pow_succ_r in Hk2 by lia.
    assert (Hk53 : k <= 53).
    { destruct (Z.leb_spec k 53) as [| G]; [lia |].
      assert (2 ^ 54 <= 2 ^ k) by (apply Z.pow_le_mono_r; lia).
      assert (q <= a) by nia.
      assert (2 ^ 54 = 2 * 2 ^ 53) by reflexivity. lia. }
    assert (Hbk : b * 2 ^ k <= a) by nia.
    rewrite (Z.max_l (k - 52) (-1074)) by lia.
    destruct (Z.leb_spec 0 (k - 52)) as [Ke | Ke].
    + (* exponent 0 or 1 *)
      assert (Hk : k = 52 \/ k = 53) by lia.
      destruct Hk as [Hk | Hk]; rewrite Hk in *; cbn [Z.sub].
      * change (2 ^ (52 - 52)) with 1. rewrite Z.mul_1_r.
        assert (Hb2 : b = 1 \/ b = 2).
        { assert (b * 2 ^ 52 <= 2 ^ 53) by lia.
          assert (2 ^ 53 = 2 * 2 ^ 52) by reflexivity. nia. }
        destruct Hb2 as [-> | ->].
        -- assert (R : round_half_even a 1 = a).
           { pose proof (round_half_even_exact a 1 ltac:(lia) (Z.mod_1_r a)). lia. }
           change (1 * 1) with 1. rewrite R. change (52 - 52) with 0.
           destruct (Z.leb_spec (2 ^ 1024) a).
           ++ assert (2 ^ 53 < 2 ^ 1024) by reflexivity. lia.
           ++ exists a, 0. split; [reflexivity |]. left. split; [lia |]. ring.
        -- assert (a = 2 ^ 53) by (assert (2 ^ 53 = 2 * 2 ^ 52) by reflexivity; lia).
           subst a. do 2 eexists. split; [vm_compute; reflexivity |].
           left. split; [lia | vm_compute; reflexivity].
      * assert (b = 1 /\ a = 2 ^ 53).
        { assert (b * 2 ^ 53 <= 2 ^ 53) by lia. nia. }
        destruct H as [-> ->]. do 2 eexists. split; [vm_compute; reflexivity |].
        left. split; [lia | vm_compute; reflexivity].
    + (* negative exponent [e = k - 52], [2^-e = 2^(52 - k)] *)
      destruct (Z.leb_spec 0 (k - 52)); [lia |]. cbn [andb].
      set (D := 2 ^ (- (k - 52))).
      assert (HD : 2 ^ 53 = 2 ^ k * (2 * D)).
      { unfold D. rewrite <- Z.pow_succ_r by lia. rewrite <- Z.pow_add_r by lia.
        f_equal. lia. }
      assert (HDp : 0 < D) by (apply pow2_pos; lia).
      assert (Hk1' : 0 < 2 ^ k) by (apply pow2_pos; lia).
      do 2 eexists. split; [reflexivity |]. right.
      split; [lia |].
      pose proof (round_half_even_bound (a * D) b ltac:(lia)) as Hr.
      split; [lia |].
      assert (Hb2D : b <= 2 * D) by nia.
      destruct (Z.eq_dec b (2 * D)) as [Eb | Eb]; [| left; lia].
      right. apply round_half_even_exact; [lia |].
      assert (Ea : a = b * 2 ^ k) by nia.
      rewrite Ea. apply Z.mod_divide; [lia |].
      do 2 apply Z.divide_mul_l. apply Z.divide_refl.
  - (* [a < b]: [k = - log2_up (ceil (b / a))] *)
    set (c := (b + a - 1) / a).
    assert (Hc1 : a * c <= b + a - 1) by (unfold c; apply Z.mul_div_le; lia).
    assert (Hc2 : b + a - 1 < a * (c + 1)).
    { unfold c. pose proof (Z.div_mod (b + a - 1) a ltac:(lia)).
      pose proof (Z.mod_pos_bound (b + a - 1) a ltac:(lia)). lia. }
    assert (Hc : 1 < c) by nia.
    set (j := Z.log2_up c).
    destruct (Z.log2_up_spec c Hc) as [Hj1 Hj2]. fold j in Hj1, Hj2.
    assert (Hj0 : 1 <= j).
    { pose proof (Z.log2_up_nonneg c). fold j in H.
      destruct (Z.eq_dec j 0) as [E | E]; [| lia].
      rewrite E in Hj2. cbn in Hj2. lia. }
    assert (Hj53 : j <= 53).
    { destruct (Z.leb_spec j 53) as [| G]; [lia |].
      assert (2 ^ 53 <= 2 ^ Z.pred j) by (apply Z.pow_le_mono_r; lia).
      assert (c <= b) by nia. lia. }
    rewrite (Z.max_l (- j - 52) (-1074)) by lia.
    destruct (Z.leb_spec 0 (- j - 52)); [lia |]. cbn [andb].
    set (D := 2 ^ (- (- j - 52))).
    assert (HD : D = 2 ^ j * 2 ^ 52).
    { unfold D. rewrite <- Z.pow_add_r by lia. f_equal. lia. }
    assert (Hjp : 0 < 2 ^ j) by (apply pow2_pos; lia).
    do 2 eexists. split; [reflexivity |]. right.
    split; [lia |].
    pose proof (round_half_even_bound (a * D) b ltac:(lia)) as Hr.
    split; [lia |].
    assert (Hbac : b <= a * c) by lia.
    assert (Hb2D : b <= a * 2 ^ j) by nia.
    assert (Hb2D' : a * 2 ^ j <= 2 * D).
    { rewrite HD. assert (2 ^ 53 = 2 * 2 ^ 52) by reflexivity. nia. }
    destruct (Z.eq_dec b (2 * D)) as [Eb | Eb]; [| left; lia].
    right. apply round_half_even_exact; [lia |].
    assert (Ea : a * 2 ^ j = b) by lia.
    apply Z.mod_divide; [lia |]. exists (2 ^ 52). fold D. rewrite HD, <- Ea. ring.
Qed.

(** [ceil(a / b)] for [0 <= a <= 2^53] and [1 <= b <= 2^53] is the exact
    ceiling: the least [m] with [a <= m * b]. *)
Lemma py_ceil_div_small (a b : Z) :
  0 <= a <= 2 ^ 53 -> 1 <= b <= 2 ^ 53 -> py_ceil_div a b = Ok (- ((- a) / b)).
Proof.
  intros Ha Hb.
  destruct (Z.eq_dec a 0) as [-> | Ha0].
  { unfold py_ceil_div, py_true_div.
    destruct (Z.eqb_spec b 0); [lia |]. reflexivity. }
  set (c := - ((- a) / b)).
  assert (Hc : (c - 1) * b < a <= c * b).
  { unfold c. pose proof (Z.div_mod (- a) b ltac:(lia)).
    pose proof (Z.mod_pos_bound (- a) b ltac:(lia)). nia. }
  destruct (py_true_div_small a b ltac:(lia) Hb) as [m [e [Hd Hcase]]].
  unfold py_ceil_div. rewrite Hd. cbn [bind float_ceil]. f_equal.
  destruct Hcase as [[He Hex] | [He [Hr Hx]]].
  - destruct (Z.leb_spec 0 e); [| lia].
    unfold c. rewrite <- Hex.
    replace (- (m * 2 ^ e * b)) with ((- (m * 2 ^ e)) * b) by ring.
    rewrite Z.div_mul by lia. ring.
  - destruct (Z.leb_spec 0 e); [lia |].
    set (D := 2 ^ (- e)) in *.
    assert (HD : 0 < D) by (apply pow2_pos; lia).
    assert (Hup : m <= c * D).
    { destruct (Z.leb_spec m (c * D)); [lia |].
      assert (a * D <= c * b * D) by (apply Z.mul_le_mono_nonneg_r; lia).
      assert ((c * D + 1) * b <= m * b) by (apply Z.mul_le_mono_nonneg_r; lia).
      lia. }
    assert (Hlo : (c - 1) * D < m).
    { destruct (Z.ltb_spec ((c - 1) * D) m); [lia |].
      assert (m * b <= (c - 1) * D * b) by (apply Z.mul_le_mono_nonneg_r; lia).
      assert (((c - 1) * b + 1) * D <= a * D) by (apply Z.mul_le_mono_nonneg_r; lia).
      destruct Hx as [Hx | Hx]; lia. }
    assert (Q : (- m) / D = - c).
    { symmetry. apply (Z.div_unique_pos (- m) D (- c) (c * D - m)); lia. }
    rewrite Q. ring.
Qed.

(** [int(d / 2)] for [0 <= d <= 2^53] is [d // 2]. *)
Lemma py_half_trunc_small (d : Z) :
  0 <= d <= 2 ^ 53 -> exists f, py_true_div d 2 = Ok f /\ float_trunc f = d / 2.
Proof.
  intros Hd.
  destruct (Z.eq_dec d 0) as [-> | Hd0]; [exists (0, 0); split; reflexivity |].
  destruct (py_true_div_small d 2 ltac:(lia) ltac:(split; [lia | apply Z.leb_le; reflexivity]))
    as [m [e [Hdiv Hcase]]].
  exists (m, e). split; [exact Hdiv |]. cbn [float_trunc].
  set (f := d / 2).
  assert (Hf : 2 * f <= d < 2 * f + 2).
  { unfold f. pose proof (Z.div_mod d 2 ltac:(lia)).
    pose proof (Z.mod_pos_bound d 2 ltac:(lia)). lia. }
  destruct Hcase as [[He Hex] | [He [Hr _]]].
  - destruct (Z.leb_spec 0 e); [| lia]. unfold f. rewrite <- Hex.
    rewrite Z.div_mul by lia. reflexivity.
  - destruct (Z.leb_spec 0 e); [lia |].
    set (D := 2 ^ (- e)) in *.
    assert (HD : 2 <= D).
    { unfold D. replace (- e) with (Z.succ (- e - 1)) by lia.
      rewrite Z.pow_succ_r by lia. pose proof (pow2_pos (- e - 1) ltac:(lia)). lia. }
    assert (d * D < (2 * f + 2) * D) by (apply Z.mul_lt_mono_pos_r; lia).
    assert (2 * f * D <= d * D) by (apply Z.mul_le_mono_nonneg_r; lia).
    rewrite Z.quot_div_nonneg by lia.
    symmetry. apply (Z.div_unique_pos m D f (m - f * D)); nia.
Qed.

(** Below [2^53], [ceil(a / b)] for [b > 0] is the least [m] with
    [a <= m * b]. *)
Lemma py_ceil_div_spec (a b : Z) :
  0 <= a <= 2 ^ 53 -> 1 <= b <= 2 ^ 53 ->
  exists m, py_ceil_div a b = Ok m /\ (m - 1) * b < a <= m * b.
Proof.
  intros Ha Hb. exists (- ((- a) / b)). split; [exact (py_ceil_div_small a b Ha Hb) |].
  pose proof (Z.div_mod (- a) b ltac:(lia)) as Hdm.
  pose proof (Z.mod_pos_bound (- a) b ltac:(lia)) as Hmb.
  nia.
Qed.

(** Below one box width no box fits: [metric_boxes_per_row] is [0]. *)
Lemma metric_boxes_per_row_narrow (cols : Z) :
  0 <= cols < METRIC_BOX_WIDTH -> metric_boxes_per_row cols METRICS_PADDING = 0.
Proof.
  intros H. unfold metric_boxes_per_row.
  rewrite (Z.div_small cols METRIC_BOX_WIDTH H). reflexivity.
Qed.

(** With [k = cols // 39], [metric_boxes_per_row] is [k] or [k - 1], and [0]
    when [k = 0]. *)
Lemma metric_boxes_per_row_bounds (cols : Z) :
  0 <= cols ->
  let k := cols / METRIC_BOX_WIDTH in
  (k = 0 -> metric_boxes_per_row cols METRICS_PADDING = 0) /\
  k - 1 <= metric_boxes_per_row cols METRICS_PADDING <= k.
Proof.
  intros Hc k. unfold metric_boxes_per_row. fold k.
  destruct (Z.eqb_spec k 0) as [E | E]; [lia |].
  split; [lia |].
  destruct (_ <=? _); lia.
Qed.

(** ** C2 *)

(** C2 (code_bug): the spec's formula divides by the full width of a metric
    panel (41 columns with its borders) and gives [0] below 41 columns;
    [metric_boxes_per_row] divides by the interior width 39, and at 40
    columns it returns [1] where the spec's formula gives [0]. *)
Theorem metric_boxes_per_row_40_cols :
  metric_boxes_per_row 40 METRICS_PADDING = 1 /\ panels_per_row_spec 40 = 0
  /\ 40 < metric_panel_full_width.
Proof. split; [reflexivity | split; reflexivity]. Qed.

(** ** C3 *)

(** A column count with at least one metric box per row has at least 39
    columns, and no more boxes per row than columns. *)
Lemma metric_boxes_per_row_pos (cols : Z) :
  1 <= metric_boxes_per_row cols METRICS_PADDING ->
  METRIC_BOX_WIDTH <= cols /\ metric_boxes_per_row cols METRICS_PADDING <= cols.
Proof.
  intros Hp. unfold metric_boxes_per_row in *.
  destruct (Z.eqb_spec (cols / METRIC_BOX_WIDTH) 0) as [E | E]; [lia |].
  assert (Hc : METRIC_BOX_WIDTH <= cols).
  { destruct (Z.leb_spec METRIC_BOX_WIDTH cols) as [| L]; [lia |].
    destruct (Z.ltb_spec cols 0) as [N | N].
    - assert (cols / METRIC_BOX_WIDTH < 0).
      { apply Z.div_lt_upper_bound; unfold METRIC_BOX_WIDTH in *; lia. }
      destruct (_ <=? _); lia.
    - exfalso. apply E. apply Z.div_small. unfold METRIC_BOX_WIDTH in *; lia. }
  split; [exact Hc |].
  assert (cols / METRIC_BOX_WIDTH <= cols).
  { apply Z.div_le_upper_bound; unfold METRIC_BOX_WIDTH in *; lia. }
  destruct (_ <=? _); lia.
Qed.

(** C3: for [1 <= w <= 2^53] workers, banner height [b >= 0] and a column
    count [cols <= 2^53] where [panelsPerRow = metric_boxes_per_row cols >= 1],
    [get_layout_values] succeeds, [metric_rows] is [ceil(w / panelsPerRow)]
    (the least [m] with [w <= m * panelsPerRow]) and [last_metric_line] is
    [(METRICS_COUNT + 2) * metric_rows + b + verticalPadding - 1] with
    [verticalPadding = (1 if b > 0 else 0) + (metric_rows - 1)].  (The
    source's [ceil(w / p)] divides in floating point; below [2^53] the
    float quotient rounds to the exact ceiling.) *)
Theorem get_layout_values_formula (w b cols rows : Z) :
  1 <= w <= 2 ^ 53 -> 0 <= b -> cols <= 2 ^ 53 ->
  1 <= metric_boxes_per_row cols METRICS_PADDING ->
  exists lv, get_layout_values w b cols rows = Ok lv /\
    let p := metric_boxes_per_row cols METRICS_PADDING in
    let mr := lv_metric_rows lv in
    lv_metrics_per_row lv = p /\
    (mr - 1) * p < w <= mr * p /\
    lv_metric_height lv = METRICS_COUNT + 2 /\
    lv_last_metric_line lv =
      (METRICS_COUNT + 2) * mr + b + ((if 0 <? b then 1 else 0) + (mr - 1)) - 1.
Proof.
  intros Hw Hb Hc Hp.
  pose proof (metric_boxes_per_row_pos cols Hp) as [_ Hpc].
  destruct (py_ceil_div_spec w (metric_boxes_per_row cols METRICS_PADDING))
    as [m [Hm Hmb]]; [lia | lia |].
  unfold get_layout_values. rewrite Hm. cbn [bind].
  eexists. split; [reflexivity |]. cbn.
  split; [reflexivity |]. split; [exact Hmb |]. split; [reflexivity |].
  destruct (Z.eqb_spec b 0) as [E | E];
    destruct (Z.ltb_spec 0 b); lia.
Qed.

Lemma get_layout_values_formula_witness :
  exists lv, get_layout_values 5 7 80 24 = Ok lv /\
    let p := metric_boxes_per_row 80 METRICS_PADDING in
    let mr := lv_metric_rows lv in
    lv_metrics_per_row lv = p /\
    (mr - 1) * p < 5 <= mr * p /\
    lv_metric_height lv = METRICS_COUNT + 2 /\
    lv_last_metric_line lv =
      (METRICS_COUNT + 2) * mr + 7 + ((if 0 <? 7 then 1 else 0) + (mr - 1)) - 1.
Proof.
  apply (get_layout_values_formula 5 7 80 24);
    [split; [lia | apply Z.leb_le; reflexivity] | lia
    | apply Z.leb_le; reflexivity | vm_compute; congruence].
Defined.

(** ** C9 *)

(** C9: with the default padding, [metric_boxes_per_row] is monotonically
    non-decreasing in the column count. *)
Theorem metric_boxes_per_row_monotone (c1 c2 : Z) :
  0 <= c1 <= c2 ->
  metric_boxes_per_row c1 METRICS_PADDING <= metric_boxes_per_row c2 METRICS_PADDING.
Proof.
  intros H.
  pose proof (Z.div_le_mono c1 c2 METRIC_BOX_WIDTH metric_box_width_pos (proj2 H)) as Hk.
  destruct (metric_boxes_per_row_bounds c1 ltac:(lia)) as [Z1 B1].
  destruct (metric_boxes_per_row_bounds c2 ltac:(lia)) as [Z2 B2].
  cbv zeta in *.
  destruct (Z.eq_dec (c1 / METRIC_BOX_WIDTH) (c2 / METRIC_BOX_WIDTH)) as [E | E].
  - unfold metric_boxes_per_row. rewrite E.
    destruct (Z.eqb_spec (c2 / METRIC_BOX_WIDTH) 0); [lia |].
    destruct (Z.leb_spec (c2 / METRIC_BOX_WIDTH * METRIC_BOX_WIDTH +
               (METRICS_PADDING * (c2 / METRIC_BOX_WIDTH) - 1)) c1);
    destruct (Z.leb_spec (c2 / METRIC_BOX_WIDTH * METRIC_BOX_WIDTH +
               (METRICS_PADDING * (c2 / METRIC_BOX_WIDTH) - 1)) c2); lia.
  - lia.
Qed.

Lemma metric_boxes_per_row_monotone_witness :
  metric_boxes_per_row 78 METRICS_PADDING <= metric_boxes_per_row 79 METRICS_PADDING.
Proof. apply (metric_boxes_per_row_monotone 78 79); lia. Defined.

(** ** C10 *)

(** C10: for a column count below [METRIC_BOX_WIDTH = 39],
    [metric_boxes_per_row] is [0] and both [get_layout_values] and
    [requirements_met] raise [ZeroDivisionError] at
    [ceil(worker_count / metrics_per_row)], for every worker count, banner
    height and row count. *)
Theorem narrow_terminal_zero_division (cols : Z) :
  0 <= cols < METRIC_BOX_WIDTH ->
  metric_boxes_per_row cols METRICS_PADDING = 0 /\
  forall w b rows,
    get_layout_values w b cols rows = Err ZeroDivisionError /\
    requirements_met w b cols rows = Err ZeroDivisionError.
Proof.
  intros H.
  pose proof (metric_boxes_per_row_narrow cols H) as E.
  split; [exact E |].
  intros w b rows.
  assert (G : get_layout_values w b cols rows = Err ZeroDivisionError).
  { unfold get_layout_values, py_ceil_div. rewrite E. reflexivity. }
  split; [exact G |].
  unfold requirements_met. rewrite G. reflexivity.
Qed.

Lemma narrow_terminal_zero_division_witness :
  metric_boxes_per_row 20 METRICS_PADDING = 0 /\
  forall w b rows,
    get_layout_values w b 20 rows = Err ZeroDivisionError /\
    requirements_met w b 20 rows = Err ZeroDivisionError.
Proof. apply (narrow_terminal_zero_division 20). vm_compute. split; congruence. Defined.

(** ** C1 *)

(** C1 (code_bug): two workers, no banner, an 80-column terminal.
    [get_layout_values] puts both 41-column boxes on one row
    ([metric_boxes_per_row 80 = 2]) and reports [last_metric_line = 5];
    the [BoxLayout] pass wraps the second box onto a new row (only 38
    columns remain after the first box and its padding), so the last
    occupied row is [12]. *)
Theorem layout_values_disagree_with_box_layout :
  exists lv, get_layout_values 2 0 80 24 = Ok lv /\
    lv_metrics_per_row lv = 2 /\ lv_last_metric_line lv = 5 /\
    display_layout 24 80 None (worker_boxes 2) = [(0, 0, 6); (7, 0, 6)] /\
    packed_last_row 2 0 80 24 = 12.
Proof. eexists. split; [reflexivity |]. repeat split; reflexivity. Qed.

(** ** C4 *)

Lemma all_printable_no_nul (s : string) : all_printable s = true -> has_nul s = false.
Proof.
  induction s as [| c s IH]; cbn; [reflexivity |].
  unfold printable_char. intros H.
  apply andb_prop in H as [Hc Hs]. apply andb_prop in Hc as [Hc _].
  apply Nat.leb_le in Hc.
  destruct (Nat.eqb_spec (Ascii.nat_of_ascii c) 0); [lia |]. cbn. exact (IH Hs).
Qed.

(** For printable text, [addstr] is the cell rule. *)
Lemma addstr_printable (h w y x : Z) (s : string) :
  all_printable s = true ->
  addstr h w y x s = if addstr_ok h w y x (slength s) then Ok tt else Err CursesError.
Proof.
  intros Hp. unfold addstr, addstr_ok. rewrite (all_printable_no_nul s Hp), Hp.
  destruct ((0 <=? y) && (y <? h) && (0 <=? x) && (x <? w)); reflexivity.
Qed.

Lemma addstr_ok_intro (h w y x n : Z) :
  0 <= y < h -> 0 <= x < w -> y * w + x + n < h * w -> addstr_ok h w y x n = true.
Proof.
  intros Hy Hx Hn. unfold addstr_ok.
  destruct (Z.leb_spec 0 y), (Z.ltb_spec y h), (Z.leb_spec 0 x), (Z.ltb_spec x w),
    (Z.ltb_spec (y * w + x + n) (h * w)); try lia;
  rewrite ?orb_true_r; reflexivity.
Qed.

Lemma slength_exit_message : slength exit_message = 21.
Proof. reflexivity. Qed.

Lemma exit_message_printable : all_printable exit_message = true.
Proof. reflexivity. Qed.

Lemma slength_nonneg (s : string) : 0 <= slength s.
Proof. unfold slength. lia. Qed.

(** The summary's four [stdscr] calls succeed when the block starts on
    the screen and its [l1 + 1] lines end on it. *)
Lemma summary_screen_ok (rows cols vo l1 : Z) (results : string) :
  39 <= cols -> 0 <= vo -> vo + (l1 + 1) <= rows -> 0 <= l1 ->
  slength results <= l1 * cols -> all_printable results = true ->
  run_screen rows cols
    [Move vo 0; ClrToBot; ScrAddStr vo 0 results;
     ScrAddStr (vo + (l1 + 1) - 1) 0 exit_message] = Ok tt.
Proof.
  intros Hc Hvo Hfit Hl1 Hlen Hp.
  pose proof (slength_nonneg results).
  cbn [run_screen].
  destruct (Z.leb_spec 0 vo), (Z.ltb_spec vo rows), (Z.leb_spec 0 0), (Z.ltb_spec 0 cols);
    try lia. cbn [andb].
  rewrite (addstr_printable _ _ _ _ _ Hp), addstr_ok_intro by nia. cbn [bind].
  rewrite (addstr_printable _ _ _ _ _ exit_message_printable), slength_exit_message.
  rewrite addstr_ok_intro by nia. reflexivity.
Qed.

(** C4: for [1 <= w <= 2^53] workers, a banner height [b >= 0] and a screen
    whose [cols <= 2^53] hold at least one metric box, and a printable
    summary of at most [2^53] characters, the block needs
    [message_lines = ceil(len(results) / cols) + 1] lines (the exit prompt
    fits on one line).  When the screen has that many rows,
    [scan_finished_handler] draws it: at [last_metric_line + 1] when it fits
    below the metrics, and else shifted up so that its bottom line (the
    exit prompt) is [rows - 1]; the offset is never negative and
    [vertical_offset + message_lines <= rows].  On a screen with fewer rows
    the shifted offset is negative and [stdscr.move] raises. *)
Theorem scan_finished_placement (w b cols rows : Z) (results : string) :
  1 <= w <= 2 ^ 53 -> 0 <= b -> cols <= 2 ^ 53 ->
  1 <= metric_boxes_per_row cols METRICS_PADDING ->
  slength results <= 2 ^ 53 -> all_printable results = true ->
  exists lv ml,
    get_layout_values w b cols rows = Ok lv /\
    py_ceil_div (slength results) cols = Ok (ml - 1) /\
    (ml <= rows ->
     exists vo ops,
       scan_finished_handler w b cols rows results = Ok (vo, ml, ops) /\
       (lv_last_metric_line lv + 1 + ml <= rows -> vo = lv_last_metric_line lv + 1) /\
       (rows - (lv_last_metric_line lv + 1) < ml -> vo + ml - 1 = rows - 1) /\
       0 <= vo /\ vo + ml <= rows /\
       last ops (Move 0 0) = ScrAddStr (vo + ml - 1) 0 exit_message) /\
    (rows < ml -> scan_finished_handler w b cols rows results = Err CursesError).
Proof.
  intros Hw Hb Hc Hp Hlen Hpr.
  pose proof (metric_boxes_per_row_pos cols Hp) as [Hc39 Hpc].
  unfold METRIC_BOX_WIDTH in Hc39.
  destruct (py_ceil_div_spec w (metric_boxes_per_row cols METRICS_PADDING))
    as [m [Hm Hmb]]; [lia | lia |].
  assert (Hm1 : 1 <= m) by nia.
  pose proof (slength_nonneg results) as Hl0.
  destruct (py_ceil_div_spec (slength results) cols) as [l1 [H1 Hl1]]; [lia | lia |].
  destruct (py_ceil_div_spec (slength exit_message) cols) as [l2 [H2 Hl2]];
    [rewrite slength_exit_message; split; [lia | apply Z.leb_le; reflexivity] | lia |].
  rewrite slength_exit_message in Hl2.
  assert (El2 : l2 = 1) by nia. subst l2.
  assert (Hl1p : 0 <= l1) by nia.
  set (lml := 6 * m + b + ((if b =? 0 then 0 else 1) + (m - 1)) - 1).
  assert (Hlml : 0 <= lml + 1) by (unfold lml; destruct (b =? 0); lia).
  assert (G : get_layout_values w b cols rows =
              Ok (mkLayoutValues rows cols (metric_boxes_per_row cols METRICS_PADDING)
                    m 6 b lml)).
  { unfold get_layout_values. rewrite Hm. reflexivity. }
  exists (mkLayoutValues rows cols (metric_boxes_per_row cols METRICS_PADDING) m 6 b lml),
    (l1 + 1).
  split; [exact G |]. split; [rewrite H1; f_equal; ring |].
  unfold scan_finished_handler. rewrite G. cbn [bind lv_rows lv_cols lv_last_metric_line].
  rewrite H1, H2. cbn [bind].
  destruct (Z.ltb_spec rows (lml + 1 + (l1 + 1))) as [Over | Fit].
  - split.
    + intros Hrows.
      rewrite (summary_screen_ok rows cols (rows - (l1 + 1)) l1 results)
        by (first [exact Hpr | lia | nia]).
      cbn [bind]. do 2 eexists. split; [reflexivity |]. cbn. repeat split; lia.
    + intros Hrows. cbn [run_screen].
      destruct (Z.leb_spec 0 (rows - (l1 + 1))); [lia |]. reflexivity.
  - split.
    + intros Hrows.
      rewrite (summary_screen_ok rows cols (lml + 1) l1 results) by (first [exact Hpr | lia | nia]).
      cbn [bind]. do 2 eexists. split; [reflexivity |]. cbn. repeat split; lia.
    + intros Hrows. lia.
Qed.

Lemma scan_finished_placement_witness :
  exists lv ml,
    get_layout_values 5 7 80 24 = Ok lv /\
    py_ceil_div (slength "Found 3 issues") 80 = Ok (ml - 1) /\
    (ml <= 24 ->
     exists vo ops,
       scan_finished_handler 5 7 80 24 "Found 3 issues" = Ok (vo, ml, ops) /\
       (lv_last_metric_line lv + 1 + ml <= 24 -> vo = lv_last_metric_line lv + 1) /\
       (24 - (lv_last_metric_line lv + 1) < ml -> vo + ml - 1 = 24 - 1) /\
       0 <= vo /\ vo + ml <= 24 /\
       last ops (Move 0 0) = ScrAddStr (vo + ml - 1) 0 exit_message) /\
    (24 < ml -> scan_finished_handler 5 7 80 24 "Found 3 issues" = Err CursesError).
Proof.
  apply (scan_finished_placement 5 7 80 24 "Found 3 issues"%string);
    try (split; [lia | apply Z.leb_le; reflexivity]);
    try (apply Z.leb_le; reflexivity); try reflexivity; try lia.
Defined.

(** ** C5 *)

(** C5 (code_bug): [requirements_met] tests [rows >= last_metric_line],
    although [last_metric_line] is a 0-based row index: one worker, no
    banner, 100 columns and 5 rows pass the check while the box ends on
    row index 5, below a 5-row screen.  It also trusts the
    [get_layout_values] estimate of C1 (at 80 columns and 10 rows two
    workers pass while the boxes reach row 12), and below 39 columns it
    raises instead of returning [false]. *)
Theorem requirements_met_accepts_truncated_grid :
  requirements_met 1 0 100 5 = Ok true /\ packed_last_row 1 0 100 5 = 5 /\
  requirements_met 2 0 80 10 = Ok true /\ packed_last_row 2 0 80 10 = 12 /\
  requirements_met 1 0 20 24 = Err ZeroDivisionError.
Proof. repeat split; reflexivity. Qed.

(** ** C6 *)

(** The errors [addstr] can raise. *)
Lemma addstr_error (h w y x : Z) (s : string) (e : py_error) :
  addstr h w y x s = Err e ->
  e = CursesError \/ e = ValueError "embedded null character" \/ e = UnmodelledText.
Proof.
  unfold addstr.
  destruct (has_nul s); [intros E; injection E as <-; auto |].
  destruct (negb _); [intros E; injection E as <-; auto |].
  destruct (negb (all_printable s)); [intros E; injection E as <-; auto |].
  destruct (addstr_ok _ _ _ _ _); [discriminate | intros E; injection E as <-; auto].
Qed.

Lemma run_ops_error (h w : Z) (ops : list DrawOp) (e : py_error) :
  run_ops h w ops = Err e ->
  e = CursesError \/ e = ValueError "embedded null character" \/ e = UnmodelledText.
Proof.
  induction ops as [| op ops IH]; cbn; [discriminate |].
  destruct op as [| y x s]; [exact IH |].
  destruct (addstr h w y x s) eqn:A; cbn [bind]; [exact IH |].
  intros E. injection E as <-. exact (addstr_error _ _ _ _ _ _ A).
Qed.

(** [newwin] raises [OverflowError] or a curses error only. *)
Lemma newwin_error (lines cols h w : Z) (e : py_error) :
  newwin lines cols h w = Err e -> e = OverflowError \/ e = CursesError.
Proof.
  unfold newwin.
  destruct (_ || _ || _ || _); [intros E; injection E as <-; auto |].
  destruct (_ || _); [intros E; injection E as <-; auto |].
  destruct (_ || _ || _ || _); [intros E; injection E as <-; auto | discriminate].
Qed.

(** [newwin] with positive sizes gives a window of exactly those sizes. *)
Lemma newwin_positive (lines cols h w : Z) (win : Window) :
  0 < h -> 0 < w -> newwin lines cols h w = Ok win -> win = mkWindow h w.
Proof.
  intros Hh Hw. unfold newwin.
  destruct (_ || _ || _ || _); [discriminate |].
  destruct (_ || _); [discriminate |].
  destruct (Z.eqb_spec h 0); [lia |]. destruct (Z.eqb_spec w 0); [lia |].
  destruct (_ || _ || _ || _); [discriminate |].
  intros E. injection E as <-. reflexivity.
Qed.

Definition five_metrics : list Metric :=
  [mkMetric "Files Processed" "0"; mkMetric "Bytes Processed" "0";
   mkMetric "Matches Found" "0"; mkMetric "Index" "0";
   mkMetric "Extra" "0"].

(** C6 (counterexample): on a 24 by 80 screen, a [MetricBox] built with
    five metrics, one more than [METRICS_COUNT], is constructed and rendered
    without error, in a window of 7 lines. *)
Lemma metric_box_five_metrics_constructs :
  metric_box_init 24 80 five_metrics (Some "Worker 1"%string)
  = Ok (mkBox (MetricKind five_metrics) true (Some "Worker 1"%string), mkWindow 7 41)
  /\ METRICS_COUNT < Z.of_nat (List.length five_metrics).
Proof. split; reflexivity. Qed.

(** C6 (amended): [MetricBox] construction has no metric-count check: for
    any metrics list and screen it never raises the configuration-mismatch
    [ValueError]; its only errors come from creating its window
    ([OverflowError] or a curses error from [newwin]) or drawing it (a
    curses error, the [ValueError] of an embedded NUL, or text outside the
    modelled printable ASCII).  A constructed box has a window of
    [len(metrics) + 2] lines and [METRIC_BOX_WIDTH + 2] columns.  The count
    check lives in [_get_metrics] alone, whose list always has exactly
    [METRICS_COUNT] metrics, so it always succeeds. *)
Theorem metric_count_check_only_in_get_metrics :
  (forall lines cols metrics t e,
     metric_box_init lines cols metrics t = Err e ->
     e = CursesError \/ e = OverflowError \/
     e = ValueError "embedded null character" \/ e = UnmodelledText) /\
  (forall lines cols metrics t bx win,
     metric_box_init lines cols metrics t = Ok (bx, win) ->
     win = mkWindow (Z.of_nat (List.length metrics) + 2) (METRIC_BOX_WIDTH + 2)) /\
  (forall count bytes matches index,
     exists metrics, get_metrics count bytes matches index = Ok metrics /\
       Z.of_nat (List.length metrics) = METRICS_COUNT).
Proof.
  split; [| split].
  - intros lines cols metrics t e. unfold metric_box_init, box_init.
    cbn [compute_size border].
    destruct (newwin _ _ _ _) as [win | e'] eqn:N; cbn [bind].
    + destruct (run_ops _ _ _) as [[] | e'] eqn:R; cbn [bind]; [discriminate |].
      intros E. injection E as <-.
      destruct (run_ops_error _ _ _ _ R) as [-> | [-> | ->]]; auto.
    + intros E. injection E as <-.
      destruct (newwin_error _ _ _ _ _ N) as [-> | ->]; auto.
  - intros lines cols metrics t bx win. unfold metric_box_init, box_init.
    cbn [compute_size border get_height get_width box_kind].
    destruct (newwin _ _ _ _) as [win' | e'] eqn:N; cbn [bind]; [| discriminate].
    destruct (run_ops _ _ _) as [[] | e'] eqn:R; cbn [bind]; [| discriminate].
    intros E. injection E as _ <-.
    apply (newwin_positive lines cols); [lia | unfold METRIC_BOX_WIDTH; lia | exact N].
  - intros count bytes matches index. eexists. split; reflexivity.
Qed.

(** ** C7 *)

(** C7: [Box.render] draws a box's title on line 0, right after the border,
    at column [floor((width - len) / 2)] when it is shorter than the full
    width, at column [0] otherwise, and at column [0] whenever it is longer
    than the interior width [get_width]. *)
Theorem render_title_offset (bx : Box) (t : string) :
  title bx = Some t ->
  let width := snd (compute_size bx) in
  exists off,
    render bx = (if border bx then [DrawBorder] else [])
                ++ AddStr 0 off t :: draw_content bx /\
    (slength t < width -> off = (width - slength t) / 2) /\
    (width <= slength t -> off = 0) /\
    (get_width bx < slength t -> off = 0).
Proof.
  intros Ht width.
  exists (title_offset width (slength t)).
  split.
  - unfold render, width. destruct (compute_size bx) as [h w] eqn:C.
    rewrite Ht. reflexivity.
  - assert (Hw : width = get_width bx + 2 * get_border_offset bx).
    { unfold width, compute_size, get_border_offset. destruct (border bx); cbn; lia. }
    assert (Hb : 0 <= get_border_offset bx <= 1).
    { unfold get_border_offset. destruct (border bx); lia. }
    unfold title_offset.
    destruct (Z.ltb_spec (slength t) width) as [L | L].
    + rewrite Z.quot_div_nonneg by lia.
      split; [reflexivity |]. split; [lia |].
      intros G.
      assert (E : width - slength t = 1) by lia.
      rewrite E. reflexivity.
    + split; [lia |]. split; reflexivity.
Qed.

Lemma render_title_offset_witness :
  let bx := mkBox (MetricKind (zero_metrics 0)) true (Some "Worker 1"%string) in
  let width := snd (compute_size bx) in
  exists off,
    render bx = (if border bx then [DrawBorder] else [])
                ++ AddStr 0 off "Worker 1" :: draw_content bx /\
    (slength "Worker 1" < width -> off = (width - slength "Worker 1") / 2) /\
    (width <= slength "Worker 1" -> off = 0) /\
    (get_width bx < slength "Worker 1" -> off = 0).
Proof. apply (render_title_offset _ "Worker 1"%string). reflexivity. Defined.

(** ** C8 *)

Definition empty_registry : Registry := mkRegistry [] [].

(** C8 (code_bug): with two live displays, [reset_terminal] ends only the
    first: removing it from [_displays] while the [for] loop walks the same
    list shifts the second display to index 0, and the loop stops at index
    1.  Display 2 stays registered with curses never ended, and calling
    [end] again on the already ended display 1 raises [ValueError]. *)
Theorem reset_terminal_skips_second_display :
  let st := progress_display_init 2 (progress_display_init 1 empty_registry) in
  displays st = [1; 2]%nat /\
  reset_terminal st = Ok (mkRegistry [2] [1])%nat /\
  display_end 1 (mkRegistry [2] [1])%nat
    = Err (ValueError "list.remove(x): x not in list").
Proof. repeat split; reflexivity. Qed.

(** * Further properties of [progress.py] *)

(** ** [compute_center_offset] *)

(** [compute_center_offset width cols] is [0] when [width > cols];
    otherwise, while the gap [cols - width] is at most [2^53] (where the
    float halving is exact), it centres: the gaps on the left and the right
    differ by at most one column, the right one being the larger. *)
Theorem compute_center_offset_centres (width cols : Z) :
  (cols < width -> compute_center_offset width cols = Ok 0) /\
  (width <= cols <= width + 2 ^ 53 ->
   exists off, compute_center_offset width cols = Ok off /\
     0 <= off /\ off <= cols - width - off <= off + 1).
Proof.
  unfold compute_center_offset. split.
  - intros L. destruct (Z.ltb_spec cols width); [reflexivity | lia].
  - intros L. destruct (Z.ltb_spec cols width); [lia |].
    destruct (py_half_trunc_small (cols - width) ltac:(lia)) as [f [Hf Ht]].
    rewrite Hf. cbn [bind]. exists (float_trunc f). split; [reflexivity |].
    rewrite Ht.
    pose proof (Z.div_mod (cols - width) 2 ltac:(lia)).
    pose proof (Z.mod_pos_bound (cols - width) 2 ltac:(lia)).
    pose proof (Z.div_pos (cols - width) 2 ltac:(lia) ltac:(lia)).
    lia.
Qed.

Lemma compute_center_offset_centres_witness :
  compute_center_offset 90 80 = Ok 0 /\
  exists off, compute_center_offset 41 80 = Ok off /\
    0 <= off /\ off <= 80 - 41 - off <= off + 1.
Proof.
  split.
  - apply (proj1 (compute_center_offset_centres 90 80)). lia.
  - apply (proj2 (compute_center_offset_centres 41 80)).
    split; [lia | apply Z.leb_le; vm_compute; reflexivity].
Defined.

(** Above [2^53] columns the float halving rounds: for a 0-column text on
    [2^55 + 2] columns, [int((cols - width) / 2)] is [2^54], so the right
    gap is two columns wider than the left one. *)
Theorem compute_center_offset_rounds_large_gap :
  compute_center_offset 0 (2 ^ 55 + 2) = Ok (2 ^ 54) /\
  (2 ^ 55 + 2 - 0 - 2 ^ 54) - 2 ^ 54 = 2.
Proof. split; vm_compute; reflexivity. Qed.

(** ** [BoxLayout]: placed boxes never overlap and stay on screen *)

(** Every box placed so far lies wholly above the current row, or in the
    current row left of the cursor (with the padding) and no taller than
    the row's maximum height. *)
Definition row_inv (l : BoxLayout) (prev : list (Z * Z * Z * Z)) : Prop :=
  Forall (fun '(y, x, h, w) =>
    y + h <= bl_y l \/
    (y = bl_y l /\ x + w + bl_padding l <= bl_x l /\ h <= bl_max_row_height l))
    prev.

Lemma row_inv_disjoint_pairs (boxes : list Box) :
  Forall (fun b => 0 <= snd (compute_size b)) boxes ->
  forall l prev,
    0 <= bl_padding l -> 0 <= bl_max_row_height l -> row_inv l prev ->
    Forall (fun q => Forall (fun p => rects_disjoint p q) prev) (layout_rects l boxes)
    /\ ForallOrdPairs rects_disjoint (layout_rects l boxes).
Proof.
  induction boxes as [| b bs IH]; intros Hws l prev Hp Hm Hinv.
  - split; constructor.
  - inversion Hws as [| ? ? Hw0 Hws']; subst. specialize (IH Hws').
    unfold layout_rects. cbn [combine layout_pass map].
    unfold position. destruct (compute_size b) as [h w] eqn:Cs. cbn [fst snd].
    rewrite ?Cs. cbn [snd]. rewrite ?Cs in Hw0. cbn [snd] in Hw0.
    destruct (Z.ltb_spec (bl_cols l - bl_x l) w) as [Wr | Wr].
    + (* wrapped onto a new row *)
      set (l' := mkBoxLayout (bl_lines l) (bl_cols l) (bl_padding l)
                   (0 + w + bl_padding l)
                   (bl_y l + bl_max_row_height l + bl_padding l) (Z.max h 0)).
      set (r := (bl_y l + bl_max_row_height l + bl_padding l, 0, h, w)).
      assert (Hprev : Forall (fun p => rects_disjoint p r) prev).
      { unfold row_inv in Hinv. eapply Forall_impl; [| exact Hinv].
        intros [[[y x] hh] ww] H. cbn. lia. }
      assert (Hinv' : row_inv l' (r :: prev)).
      { constructor.
        - cbn. right. lia.
        - unfold row_inv in Hinv. eapply Forall_impl; [| exact Hinv].
          intros [[[y x] hh] ww] H. cbn. lia. }
      destruct (IH l' (r :: prev) Hp ltac:(cbn; lia) Hinv') as [H1 H2].
      fold (layout_rects l' bs) in *.
      split.
      * constructor; cbn [snd]; rewrite ?Cs; [exact Hprev |].
        eapply Forall_impl; [| exact H1]. intros q Hq. inversion Hq; assumption.
      * constructor; cbn [snd]; rewrite ?Cs; [| exact H2].
        eapply Forall_impl; [| exact H1]. intros q Hq. inversion Hq; assumption.
    + (* placed on the current row *)
      set (l' := mkBoxLayout (bl_lines l) (bl_cols l) (bl_padding l)
                   (bl_x l + w + bl_padding l) (bl_y l)
                   (Z.max h (bl_max_row_height l))).
      set (r := (bl_y l, bl_x l, h, w)).
      assert (Hprev : Forall (fun p => rects_disjoint p r) prev).
      { unfold row_inv in Hinv. eapply Forall_impl; [| exact Hinv].
        intros [[[y x] hh] ww] H. cbn. lia. }
      assert (Hinv' : row_inv l' (r :: prev)).
      { constructor.
        - cbn. right. lia.
        - unfold row_inv in Hinv. eapply Forall_impl; [| exact Hinv].
          intros [[[y x] hh] ww] H. cbn. lia. }
      destruct (IH l' (r :: prev) Hp ltac:(cbn; lia) Hinv') as [H1 H2].
      fold (layout_rects l' bs) in *.
      split.
      * constructor; cbn [snd]; rewrite ?Cs; [exact Hprev |].
        eapply Forall_impl; [| exact H1]. intros q Hq. inversion Hq; assumption.
      * constructor; cbn [snd]; rewrite ?Cs; [| exact H2].
        eapply Forall_impl; [| exact H1]. intros q Hq. inversion Hq; assumption.
Qed.

(** A fresh [BoxLayout] with a non-negative padding places any sequence of
    boxes so that no two of them share a screen cell. *)
Theorem box_layout_no_overlap (lines cols padding : Z) (boxes : list Box) :
  0 <= padding -> Forall (fun b => 0 <= snd (compute_size b)) boxes ->
  ForallOrdPairs rects_disjoint (layout_rects (new_layout lines cols padding) boxes).
Proof.
  intros Hp Hws.
  apply (row_inv_disjoint_pairs boxes Hws (new_layout lines cols padding) []);
    cbn; [exact Hp | lia | constructor].
Qed.

Lemma box_layout_no_overlap_witness :
  ForallOrdPairs rects_disjoint
    (layout_rects (new_layout 24 200 METRICS_PADDING)
       (display_boxes (banner_box 200 7) (worker_boxes 5))).
Proof.
  apply box_layout_no_overlap; [discriminate |].
  repeat constructor; discriminate.
Defined.

Lemma layout_rects_cons (l : BoxLayout) (b : Box) (bs : list Box) :
  layout_rects l (b :: bs) =
  let '(l', (y, x)) := position l b in
  (y, x, fst (compute_size b), snd (compute_size b)) :: layout_rects l' bs.
Proof.
  unfold layout_rects at 1. cbn [combine layout_pass].
  destruct (position l b) as [l' [y x]]. reflexivity.
Qed.

Lemma layout_rects_in_bounds (boxes : list Box) :
  Forall (fun b => 0 <= snd (compute_size b)) boxes ->
  forall l,
    0 <= bl_x l -> 0 <= bl_y l -> 0 <= bl_max_row_height l -> 0 <= bl_padding l ->
    Forall (fun '(y, x, h, w) =>
      0 <= y /\ 0 <= x /\ (w <= bl_cols l -> x + w <= bl_cols l))
      (layout_rects l boxes).
Proof.
  induction boxes as [| b bs IH]; intros Hws l Hx Hy Hm Hp; [constructor |].
  inversion Hws as [| ? ? Hw0 Hws']; subst.
  rewrite layout_rects_cons.
  unfold position. destruct (compute_size b) as [h w] eqn:Cs. cbn [fst snd] in *.
  destruct (Z.ltb_spec (bl_cols l - bl_x l) w) as [Wr | Wr].
  - constructor; [cbn; lia |].
    eapply Forall_impl; [| apply (IH Hws'); cbn; lia].
    intros [[[y x] h'] w'] H. exact H.
  - constructor; [cbn; lia |].
    eapply Forall_impl; [| apply (IH Hws'); cbn; lia].
    intros [[[y x] h'] w'] H. exact H.
Qed.

(** A fresh [BoxLayout] with a non-negative padding places every box at a
    non-negative position, and a box no wider than the terminal never runs
    past its right edge. *)
Theorem box_layout_within_columns (lines cols padding : Z) (boxes : list Box) :
  0 <= padding -> Forall (fun b => 0 <= snd (compute_size b)) boxes ->
  Forall (fun '(y, x, h, w) => 0 <= y /\ 0 <= x /\ (w <= cols -> x + w <= cols))
    (layout_rects (new_layout lines cols padding) boxes).
Proof.
  intros Hp Hws.
  exact (layout_rects_in_bounds boxes Hws (new_layout lines cols padding)
           ltac:(cbn; lia) ltac:(cbn; lia) ltac:(cbn; lia) Hp).
Qed.

Lemma box_layout_within_columns_witness :
  Forall (fun '(y, x, h, w) => 0 <= y /\ 0 <= x /\ (w <= 100 -> x + w <= 100))
    (layout_rects (new_layout 24 100 METRICS_PADDING) (worker_boxes 3)).
Proof.
  apply box_layout_within_columns; [discriminate |].
  repeat constructor; discriminate.
Defined.

(** ** Constructing a [MetricBox] *)

Lemma run_ops_app (h w : Z) (a b : list DrawOp) :
  run_ops h w (a ++ b) = (_ <- run_ops h w a ;; run_ops h w b).
Proof.
  induction a as [| op a IH]; cbn; [reflexivity |].
  destruct op as [| y x s]; [exact IH |].
  destruct (addstr h w y x s); cbn [bind]; [exact IH | reflexivity].
Qed.

Lemma slength_append (s1 s2 : string) :
  slength (String.append s1 s2) = slength s1 + slength s2.
Proof.
  unfold slength. induction s1 as [| c s1 IH]; cbn [String.append String.length];
    [reflexivity | lia].
Qed.

Lemma all_printable_append (s1 s2 : string) :
  all_printable (String.append s1 s2) = all_printable s1 && all_printable s2.
Proof.
  induction s1 as [| c s1 IH]; cbn; [reflexivity |]. rewrite IH. apply andb_assoc.
Qed.

(** [newwin] accepts sizes from 1 to 32767. *)
Lemma newwin_ok_intro (lines cols h w : Z) :
  1 <= h <= 32767 -> 1 <= w <= 32767 -> newwin lines cols h w = Ok (mkWindow h w).
Proof.
  intros Hh Hw. unfold newwin.
  destruct (Z.ltb_spec h (- 2 ^ 31)); [lia |].
  destruct (Z.ltb_spec (2 ^ 31 - 1) h) as [G | _]; [assert (2 ^ 31 - 1 = 2147483647) by reflexivity; lia |].
  destruct (Z.ltb_spec w (- 2 ^ 31)); [lia |].
  destruct (Z.ltb_spec (2 ^ 31 - 1) w) as [G | _]; [assert (2 ^ 31 - 1 = 2147483647) by reflexivity; lia |].
  cbn [orb].
  destruct (Z.ltb_spec h 0); [lia |]. destruct (Z.ltb_spec w 0); [lia |]. cbn [orb].
  destruct (Z.eqb_spec h 0); [lia |]. destruct (Z.eqb_spec w 0); [lia |].
  destruct (Z.leb_spec h 0); [lia |]. destruct (Z.ltb_spec 32767 h); [lia |].
  destruct (Z.leb_spec w 0); [lia |]. destruct (Z.ltb_spec 32767 w); [lia |].
  reflexivity.
Qed.

Lemma run_ops_printable_error (h w : Z) (ops : list DrawOp) (e : py_error) :
  ops_printable ops -> run_ops h w ops = Err e -> e = CursesError.
Proof.
  induction ops as [| op ops IH]; intros Hp; cbn; [discriminate |].
  inversion Hp as [| ? ? Hop Hp']; subst.
  destruct op as [| y x s]; [exact (IH Hp') |].
  rewrite (addstr_printable _ _ _ _ _ Hop).
  destruct (addstr_ok h w y x (slength s)); cbn [bind]; [exact (IH Hp') |].
  intros E. injection E as <-. reflexivity.
Qed.

Lemma draw_indexed_printable {A} (f : Z -> A -> list DrawOp) (xs : list A) :
  Forall (fun x => forall i, ops_printable (f i x)) xs ->
  forall i, ops_printable (draw_indexed f i xs).
Proof.
  induction xs as [| x xs IH]; intros Hx i; cbn [draw_indexed]; [constructor |].
  inversion Hx as [| ? ? Hx1 Hx2]; subst.
  apply Forall_app. split; [apply Hx1 | exact (IH Hx2 (i + 1))].
Qed.

Lemma render_metric_printable (ms : list Metric) (t : option string) :
  metrics_printable ms -> (forall s, t = Some s -> all_printable s = true) ->
  ops_printable (render (mkBox (MetricKind ms) true t)).
Proof.
  intros Hms Ht. unfold render. cbn [compute_size border title].
  apply Forall_app. split; [repeat constructor |].
  apply Forall_app. split.
  - destruct t as [s |]; [| constructor]. constructor; [exact (Ht s eq_refl) | constructor].
  - unfold draw_content. cbn [box_kind].
    apply draw_indexed_printable.
    eapply Forall_impl; [| exact Hms]. intros m [Hl Hv] i.
    repeat constructor; [| exact Hv].
    rewrite all_printable_append, Hl. reflexivity.
Qed.

Lemma metric_rows_draw_ok (n : Z) (ms : list Metric) :
  forall i, 0 <= i -> i + Z.of_nat (List.length ms) <= n ->
  metrics_printable ms ->
  Forall (fun m => slength (label m) + 1 <= METRIC_BOX_WIDTH /\
                   slength (value m) <= METRIC_BOX_WIDTH + 1) ms ->
  run_ops (n + 2) (METRIC_BOX_WIDTH + 2)
    (draw_indexed (fun index metric =>
       [AddStr (index + 1) 1 (String.append (label metric) ":");
        AddStr (index + 1) (1 + METRIC_BOX_WIDTH - slength (value metric))
          (value metric)]) i ms) = Ok tt.
Proof.
  induction ms as [| m ms IH]; intros i Hi Hn Hpr Hf; [reflexivity |].
  inversion Hf as [| ? ? [Hl Hv] Hf']; subst.
  inversion Hpr as [| ? ? [Pl Pv] Hpr']; subst.
  cbn [draw_indexed]. rewrite run_ops_app.
  cbn [List.length] in Hn.
  pose proof (slength_nonneg (label m)). pose proof (slength_nonneg (value m)).
  unfold METRIC_BOX_WIDTH in *.
  cbn [run_ops].
  assert (Pc : all_printable (String.append (label m) ":") = true).
  { rewrite all_printable_append, Pl. reflexivity. }
  rewrite (addstr_printable _ _ _ _ _ Pc), (addstr_printable _ _ _ _ _ Pv).
  rewrite slength_append. change (slength ":") with 1.
  rewrite (addstr_ok_intro (n + 2) (39 + 2) (i + 1) 1) by lia.
  rewrite (addstr_ok_intro (n + 2) (39 + 2) (i + 1)) by lia.
  cbn [bind]. apply IH; [lia | lia | exact Hpr' | exact Hf'].
Qed.

(** A [MetricBox] of at most 32765 metrics, holding printable ASCII text,
    whose labels (with their colon) fit the 39-column interior, whose values
    are at most 40 characters and whose title is at most the box's full
    width, is constructed without error on any screen, in a window of
    [len(metrics) + 2] lines and 41 columns. *)
Theorem metric_box_init_fits (lines cols : Z) (ms : list Metric) (t : option string) :
  Z.of_nat (List.length ms) + 2 <= 32767 ->
  metrics_printable ms ->
  Forall (fun m => slength (label m) + 1 <= METRIC_BOX_WIDTH /\
                   slength (value m) <= METRIC_BOX_WIDTH + 1) ms ->
  (forall s, t = Some s -> all_printable s = true /\ slength s <= METRIC_BOX_WIDTH + 2) ->
  metric_box_init lines cols ms t =
  Ok (mkBox (MetricKind ms) true t,
      mkWindow (Z.of_nat (List.length ms) + 2) (METRIC_BOX_WIDTH + 2)).
Proof.
  intros Hn Hpr Hms Ht.
  unfold metric_box_init, box_init. cbn [compute_size border get_height box_kind get_width].
  rewrite newwin_ok_intro by (unfold METRIC_BOX_WIDTH; lia). cbn [bind win_h win_w].
  unfold render. cbn [compute_size border get_height box_kind get_width].
  rewrite !run_ops_app. cbn [run_ops bind title].
  assert (Htitle : run_ops (Z.of_nat (List.length ms) + 2) (METRIC_BOX_WIDTH + 2)
            match t with
            | Some s => [AddStr 0 (title_offset (METRIC_BOX_WIDTH + 2) (slength s)) s]
            | None => []
            end = Ok tt).
  { destruct t as [s |]; [| reflexivity].
    destruct (Ht s eq_refl) as [Hs Hsl]. pose proof (slength_nonneg s).
    cbn [run_ops]. rewrite (addstr_printable _ _ _ _ _ Hs).
    assert (Hoff : 0 <= title_offset (METRIC_BOX_WIDTH + 2) (slength s) /\
                   2 * title_offset (METRIC_BOX_WIDTH + 2) (slength s) + slength s
                     <= METRIC_BOX_WIDTH + 2).
    { unfold title_offset. destruct (Z.ltb_spec (slength s) (METRIC_BOX_WIDTH + 2)).
      - rewrite Z.quot_div_nonneg by lia.
        pose proof (Z.div_mod (METRIC_BOX_WIDTH + 2 - slength s) 2 ltac:(lia)).
        pose proof (Z.mod_pos_bound (METRIC_BOX_WIDTH + 2 - slength s) 2 ltac:(lia)).
        lia.
      - lia. }
    unfold METRIC_BOX_WIDTH in *.
    rewrite addstr_ok_intro; [reflexivity | lia | lia | lia]. }
  rewrite Htitle. cbn [bind].
  unfold draw_content. cbn [box_kind get_width get_border_offset border].
  rewrite (metric_rows_draw_ok (Z.of_nat (List.length ms)) ms 0 ltac:(lia) ltac:(lia) Hpr Hms).
  reflexivity.
Qed.

Lemma metric_box_init_fits_witness :
  metric_box_init 24 80 (zero_metrics 0) (Some "Worker 1"%string) =
  Ok (mkBox (MetricKind (zero_metrics 0)) true (Some "Worker 1"%string),
      mkWindow (Z.of_nat (List.length (zero_metrics 0)) + 2) (METRIC_BOX_WIDTH + 2)).
Proof.
  apply metric_box_init_fits.
  - cbn. lia.
  - repeat constructor.
  - repeat constructor; discriminate.
  - intros s E. injection E as <-. split; [reflexivity | discriminate].
Defined.

Lemma run_ops_in_fails (h w y x : Z) (s : string) (ops : list DrawOp) :
  ops_printable ops -> In (AddStr y x s) ops -> addstr h w y x s = Err CursesError ->
  run_ops h w ops = Err CursesError.
Proof.
  intros Hp Hin Hbad.
  assert (G : exists e, run_ops h w ops = Err e).
  { clear Hp. induction ops as [| op ops IH]; [destruct Hin |].
    destruct Hin as [-> | Hin].
    - cbn. rewrite Hbad. eexists. reflexivity.
    - cbn. destruct op as [| y' x' s']; [exact (IH Hin) |].
      destruct (addstr h w y' x' s'); cbn [bind]; [exact (IH Hin) |].
      eexists. reflexivity. }
  destruct G as [e G]. rewrite G. f_equal. exact (run_ops_printable_error _ _ _ _ Hp G).
Qed.

Lemma draw_indexed_app {A} (f : Z -> A -> list DrawOp) (pre : list A) :
  forall i post,
    draw_indexed f i (pre ++ post) =
    draw_indexed f i pre ++ draw_indexed f (i + Z.of_nat (List.length pre)) post.
Proof.
  induction pre as [| a pre IH]; intros i post; cbn [app draw_indexed List.length].
  - rewrite Z.add_0_r. reflexivity.
  - rewrite IH, app_assoc. f_equal. f_equal. lia.
Qed.

Lemma draw_indexed_at {A} (f : Z -> A -> list DrawOp) (i : Z) (pre post : list A)
    (x : A) (op : DrawOp) :
  In op (f (i + Z.of_nat (List.length pre)) x) ->
  In op (draw_indexed f i (pre ++ x :: post)).
Proof.
  intros Hin. rewrite draw_indexed_app. apply in_or_app. right.
  cbn [draw_indexed]. apply in_or_app. left. exact Hin.
Qed.

(** Constructing a [MetricBox] of printable ASCII text (and at most 32765
    metrics) fails with a curses error as soon as one value is longer than
    40 characters: [draw_content] right-aligns it to a negative column. *)
Theorem metric_box_init_value_too_wide (lines cols : Z) (ms : list Metric)
    (t : option string) (m : Metric) :
  Z.of_nat (List.length ms) + 2 <= 32767 ->
  metrics_printable ms -> (forall s, t = Some s -> all_printable s = true) ->
  In m ms -> METRIC_BOX_WIDTH + 1 < slength (value m) ->
  metric_box_init lines cols ms t = Err CursesError.
Proof.
  intros Hn Hpr Ht Hin Hlong.
  pose proof (render_metric_printable ms t Hpr Ht) as Hops.
  assert (Pv : all_printable (value m) = true).
  { unfold metrics_printable in Hpr. rewrite Forall_forall in Hpr.
    exact (proj2 (Hpr m Hin)). }
  destruct (in_split m ms Hin) as [pre [post E]].
  unfold metric_box_init, box_init. cbn [compute_size border get_height box_kind get_width].
  rewrite newwin_ok_intro by (unfold METRIC_BOX_WIDTH; lia). cbn [bind win_h win_w].
  set (H := Z.of_nat (List.length ms) + 2).
  assert (R : run_ops H (METRIC_BOX_WIDTH + 2)
                (render (mkBox (MetricKind ms) true t)) = Err CursesError).
  { apply (run_ops_in_fails _ _ (0 + Z.of_nat (List.length pre) + 1)
             (1 + METRIC_BOX_WIDTH - slength (value m)) (value m) _ Hops).
    - rewrite E. unfold render. cbn [compute_size border]. apply in_or_app. right.
      apply in_or_app. right. unfold draw_content. cbn [box_kind get_width get_border_offset border].
      apply draw_indexed_at. cbn. right. left. reflexivity.
    - rewrite (addstr_printable _ _ _ _ _ Pv). unfold addstr_ok.
      destruct (Z.leb_spec 0 (1 + METRIC_BOX_WIDTH - slength (value m))); [lia |].
      rewrite andb_false_r. reflexivity. }
  rewrite R. reflexivity.
Qed.

Lemma metric_box_init_value_too_wide_witness :
  metric_box_init 24 80 [mkMetric "Bytes Processed" "12345678901234567890123456789012345678901"]
    (Some "Worker 1"%string) = Err CursesError.
Proof.
  apply (metric_box_init_value_too_wide 24 80 _ _
           (mkMetric "Bytes Processed" "12345678901234567890123456789012345678901")).
  - cbn. lia.
  - repeat constructor.
  - intros s E. injection E as <-. reflexivity.
  - left. reflexivity.
  - vm_compute. reflexivity.
Defined.

(** [newwin] refuses a window of more than 32767 lines: a [MetricBox] of
    32766 metrics or more (but fewer than [2^31 - 3], where Python's C
    [int] conversion raises [OverflowError] instead) cannot be created. *)
Theorem metric_box_init_too_many_metrics (lines cols : Z) (ms : list Metric)
    (t : option string) :
  32767 < Z.of_nat (List.length ms) + 2 <= 2 ^ 31 - 1 ->
  metric_box_init lines cols ms t = Err CursesError.
Proof.
  intros Hn. unfold metric_box_init, box_init, newwin.
  cbn [compute_size border get_height box_kind get_width].
  set (h := Z.of_nat (List.length ms) + 2) in *.
  destruct (Z.ltb_spec h (- 2 ^ 31)); [lia |].
  destruct (Z.ltb_spec (2 ^ 31 - 1) h); [lia |].
  change (METRIC_BOX_WIDTH + 2) with 41. cbn [orb].
  change (41 <? - 2 ^ 31) with false. change (2 ^ 31 - 1 <? 41) with false. cbn [orb].
  destruct (Z.ltb_spec h 0); [lia |]. cbn [orb].
  destruct (Z.eqb_spec h 0); [lia |].
  destruct (Z.leb_spec h 0); [lia |]. destruct (Z.ltb_spec 32767 h); [| lia].
  reflexivity.
Qed.

Lemma metric_box_init_too_many_metrics_witness :
  metric_box_init 24 80 (repeat (mkMetric "Index" "0") (Z.to_nat 32766)) None = Err CursesError.
Proof.
  apply metric_box_init_too_many_metrics.
  rewrite repeat_length. split; [apply Z.ltb_lt | apply Z.leb_le]; vm_compute; reflexivity.
Defined.

(** ** Constructing a [BannerBox] *)

Lemma banner_rows_draw_ok (n cols : Z) (rows : list string) :
  forall i, 0 <= i -> i + Z.of_nat (List.length rows) <= n ->
  Forall (fun r => all_printable r = true /\ slength r < cols) rows ->
  run_ops n cols (draw_indexed (fun index row => [AddStr (index + 0) 0 row]) i rows)
  = Ok tt.
Proof.
  induction rows as [| r rows IH]; intros i Hi Hn Hf; [reflexivity |].
  inversion Hf as [| ? ? [Hp Hr] Hf']; subst.
  cbn [List.length] in Hn. pose proof (slength_nonneg r).
  cbn [draw_indexed app run_ops].
  rewrite (addstr_printable _ _ _ _ _ Hp).
  rewrite addstr_ok_intro by nia. cbn [bind].
  apply IH; [lia | lia | exact Hf'].
Qed.

(** A [BannerBox] of 1 to 32767 rows of printable ASCII, whose
    [row_count] is its number of rows and whose rows are all narrower than
    the terminal (of at most 32767 columns), is constructed without error,
    in a borderless window of [row_count] lines across the full width. *)
Theorem banner_box_init_fits (lines cols : Z) (rows : list string) :
  1 <= Z.of_nat (List.length rows) <= 32767 -> cols <= 32767 ->
  Forall (fun r => all_printable r = true /\ slength r < cols) rows ->
  banner_box_init lines cols (Z.of_nat (List.length rows)) rows =
  Ok (mkBox (BannerKind cols (Z.of_nat (List.length rows)) rows) false None,
      mkWindow (Z.of_nat (List.length rows)) cols).
Proof.
  intros Hn Hc Hf.
  assert (Hc1 : 1 <= cols).
  { destruct rows as [| r rows]; [cbn in Hn; lia |].
    inversion Hf as [| ? ? [_ Hr] _]; subst. pose proof (slength_nonneg r). lia. }
  unfold banner_box_init, box_init.
  cbn [compute_size border get_height get_width box_kind].
  rewrite newwin_ok_intro by lia. cbn [bind win_h win_w].
  unfold render, draw_content.
  cbn [compute_size border get_height get_width box_kind title get_border_offset app].
  rewrite (banner_rows_draw_ok (Z.of_nat (List.length rows)) cols rows 0 ltac:(lia) ltac:(lia) Hf).
  reflexivity.
Qed.

Lemma banner_box_init_fits_witness :
  banner_box_init 24 10 2 ["WORDFENCE"; "CLI"]%string =
  Ok (mkBox (BannerKind 10 2 ["WORDFENCE"; "CLI"]%string) false None, mkWindow 2 10).
Proof.
  apply (banner_box_init_fits 24 10 ["WORDFENCE"; "CLI"]%string).
  - cbn. lia.
  - lia.
  - repeat constructor.
Defined.

(** A [BannerBox] of no rows gets, by [newwin]'s rule for a 0 size, a
    window as tall as the whole screen. *)
Theorem banner_box_init_empty_full_height (lines cols : Z) :
  1 <= lines <= 32767 -> 1 <= cols <= 32767 ->
  banner_box_init lines cols 0 [] =
  Ok (mkBox (BannerKind cols 0 []) false None, mkWindow lines cols).
Proof.
  intros Hl Hc. unfold banner_box_init, box_init, newwin.
  cbn [compute_size border get_height get_width box_kind].
  change (0 <? - 2 ^ 31) with false. change (2 ^ 31 - 1 <? 0) with false.
  destruct (Z.ltb_spec cols (- 2 ^ 31)); [lia |].
  destruct (Z.ltb_spec (2 ^ 31 - 1) cols) as [G | _];
    [assert (2 ^ 31 - 1 = 2147483647) by reflexivity; lia |].
  cbn [orb]. change (0 <? 0) with false. destruct (Z.ltb_spec cols 0); [lia |].
  cbn [orb]. change (0 =? 0) with true. cbn iota.
  destruct (Z.eqb_spec cols 0); [lia |].
  destruct (Z.leb_spec lines 0); [lia |]. destruct (Z.ltb_spec 32767 lines); [lia |].
  destruct (Z.leb_spec cols 0); [lia |]. destruct (Z.ltb_spec 32767 cols); [lia |].
  reflexivity.
Qed.

Lemma banner_box_init_empty_full_height_witness :
  banner_box_init 24 80 0 [] =
  Ok (mkBox (BannerKind 80 0 []) false None, mkWindow 24 80).
Proof. apply banner_box_init_empty_full_height; lia. Defined.

(** A [BannerBox] of printable ASCII whose last row is exactly as wide as
    the terminal cannot be constructed: writing that row fills the window's
    bottom-right cell and curses raises. *)
Theorem banner_box_init_full_last_row (lines cols : Z) (pre : list string) (last_row : string) :
  1 <= cols <= 32767 -> Z.of_nat (List.length pre) + 1 <= 32767 ->
  Forall (fun r => all_printable r = true) (pre ++ [last_row]) ->
  slength last_row = cols ->
  banner_box_init lines cols (Z.of_nat (List.length (pre ++ [last_row]))) (pre ++ [last_row])
  = Err CursesError.
Proof.
  intros Hc Hn Hp Hl.
  assert (Pl : all_printable last_row = true).
  { rewrite Forall_forall in Hp. apply Hp. apply in_or_app. right. left. reflexivity. }
  unfold banner_box_init, box_init.
  cbn [compute_size border get_height get_width box_kind].
  rewrite length_app. cbn [List.length].
  rewrite newwin_ok_intro by lia. cbn [bind win_h win_w].
  rewrite (run_ops_in_fails _ _ (0 + Z.of_nat (List.length pre) + 0) 0 last_row).
  - reflexivity.
  - unfold render, draw_content.
    cbn [compute_size border get_height get_width box_kind title get_border_offset app].
    apply draw_indexed_printable.
    eapply Forall_impl; [| exact Hp]. intros r Hr i. repeat constructor. exact Hr.
  - unfold render, draw_content.
    cbn [compute_size border get_height get_width box_kind title get_border_offset app].
    apply draw_indexed_at. left. reflexivity.
  - rewrite (addstr_printable _ _ _ _ _ Pl). unfold addstr_ok.
    rewrite Hl.
    destruct (Z.ltb_spec ((0 + Z.of_nat (List.length pre) + 0) * cols + 0 + cols)
                (Z.of_nat (List.length pre + 1) * cols)); [nia |].
    destruct (Z.eqb_spec cols 0); [lia |].
    cbn [orb]. rewrite !andb_false_r. reflexivity.
Qed.

Lemma banner_box_init_full_last_row_witness :
  banner_box_init 24 3 2 ["ab"; "xyz"]%string = Err CursesError.
Proof.
  apply (banner_box_init_full_last_row 24 3 ["ab"%string] "xyz"%string);
    [lia | cbn; lia | repeat constructor | reflexivity].
Defined.

(** ** The registry [_displays] *)

Lemma list_remove_middle (d : nat) (pre post : list nat) :
  ~ In d pre -> list_remove d (pre ++ d :: post) = Ok (pre ++ post).
Proof.
  induction pre as [| y pre IH]; intros Hn; cbn.
  - rewrite Nat.eqb_refl. reflexivity.
  - destruct (Nat.eqb_spec y d) as [-> | Ne].
    + exfalso. apply Hn. left. reflexivity.
    + rewrite IH; [reflexivity |]. intros Hi. apply Hn. right. exact Hi.
Qed.

(** Registering a display that is not yet registered and ending it leaves
    the registry as it was, with the display logged as restored. *)
Theorem display_end_after_init (d : nat) (st : Registry) :
  ~ In d (displays st) ->
  display_end d (progress_display_init d st) =
  Ok (mkRegistry (displays st) (restored st ++ [d])).
Proof.
  intros Hn. unfold display_end, progress_display_init. cbn [displays restored].
  rewrite (list_remove_middle d (displays st) [] Hn), app_nil_r. reflexivity.
Qed.

Lemma display_end_after_init_witness :
  display_end 3 (progress_display_init 3 (mkRegistry [1; 2] [0])%nat) =
  Ok (mkRegistry [1; 2] ([0] ++ [3]))%nat.
Proof.
  apply (display_end_after_init 3 (mkRegistry [1; 2] [0])%nat).
  cbn. intros [E | [E | []]]; discriminate.
Defined.

Lemma iterate_end_split (fuel : nat) :
  forall kept rest rs,
    (List.length rest <= fuel)%nat -> NoDup (kept ++ rest) ->
    iterate_end fuel (List.length kept) (mkRegistry (kept ++ rest) rs) =
    Ok (mkRegistry (kept ++ odds rest) (rs ++ evens rest)).
Proof.
  induction fuel as [| fuel IH]; intros kept rest rs Hf Hnd.
  - destruct rest; [| cbn in Hf; lia].
    cbn. rewrite !app_nil_r. reflexivity.
  - destruct rest as [| r rest].
    + cbn [iterate_end displays]. rewrite app_nil_r.
      rewrite (proj2 (nth_error_None _ _)) by lia. cbn. rewrite !app_nil_r. reflexivity.
    + assert (Hr : ~ In r kept).
      { intros Hi. apply NoDup_remove_2 in Hnd. apply Hnd. apply in_or_app. left. exact Hi. }
      cbn [iterate_end displays].
      rewrite nth_error_app2 by lia. rewrite Nat.sub_diag. cbn [nth_error].
      unfold display_end. cbn [displays restored].
      rewrite (list_remove_middle r kept rest Hr). cbn [bind].
      pose proof (NoDup_remove_1 _ _ _ Hnd) as Hnd'.
      destruct rest as [| s rest].
      * destruct fuel; cbn [iterate_end displays]; rewrite ?app_nil_r;
          [reflexivity |].
        rewrite (proj2 (nth_error_None _ _)) by lia. reflexivity.
      * replace (S (List.length kept)) with (List.length (kept ++ [s]))
          by (rewrite length_app; cbn; lia).
        replace (kept ++ s :: rest) with ((kept ++ [s]) ++ rest)
          by (rewrite <- app_assoc; reflexivity).
        rewrite IH.
        -- cbn [odds evens]. rewrite <- !app_assoc. reflexivity.
        -- cbn in Hf. lia.
        -- rewrite <- app_assoc. exact Hnd'.
Qed.

(** With distinct registered displays, [reset_terminal] never raises but
    ends exactly the displays at even positions of [_displays] (the 1st,
    3rd, ...), in order; the ones at odd positions are skipped and stay
    registered.  So it empties the registry only when at most one display
    is registered. *)
Theorem reset_terminal_ends_even_positions (st : Registry) :
  NoDup (displays st) ->
  reset_terminal st =
  Ok (mkRegistry (odds (displays st)) (restored st ++ evens (displays st))).
Proof.
  intros Hnd. destruct st as [ds rs]. unfold reset_terminal. cbn [displays restored] in *.
  exact (iterate_end_split (List.length ds) [] ds rs (le_n _) Hnd).
Qed.

Lemma reset_terminal_ends_even_positions_witness :
  reset_terminal (mkRegistry [10; 11; 12; 13; 14] [])%nat =
  Ok (mkRegistry [11; 13] ([] ++ [10; 12; 14]))%nat.
Proof.
  apply (reset_terminal_ends_even_positions (mkRegistry [10; 11; 12; 13; 14] [])%nat).
  cbn. repeat constructor; cbn; intuition discriminate.
Defined.

(** ** The rows the [BoxLayout] pass really fills *)

Lemma pack_metric_rows (cols Y : Z) (lines : Z) (boxes : list Box) :
  let k := (cols + 1) / 42 in
  1 <= k ->
  Forall (fun b => compute_size b = (6, 41)) boxes ->
  forall q r,
    0 <= q -> 0 <= r < k ->
    fold_left (fun m '(y, _, h) => Z.max m (y + h - 1))
      (layout_pass (mkBoxLayout lines cols 1 (42 * (r + 1)) (Y + 7 * q) 6) boxes)
      (Y + 7 * q + 5)
    = Y + 7 * ((q * k + r + Z.of_nat (List.length boxes)) / k) + 5.
Proof.
  intros k Hk Hb.
  pose proof (Z.div_mod (cols + 1) 42 ltac:(lia)) as Dm.
  pose proof (Z.mod_pos_bound (cols + 1) 42 ltac:(lia)) as Mb.
  fold k in Dm.
  induction boxes as [| b bs IH]; intros q r Hq Hr.
  - cbn [layout_pass fold_left List.length].
    rewrite Z.add_0_r.
    replace (q * k + r) with (r + q * k) by lia.
    rewrite Z.div_add by lia. rewrite Z.div_small by lia. lia.
  - inversion Hb as [| ? ? Hs Hb']; subst. specialize (IH Hb').
    cbn [layout_pass fold_left List.length].
    unfold position. rewrite Hs. cbn [bl_cols bl_x bl_y bl_max_row_height bl_padding bl_lines fst].
    destruct (Z.ltb_spec (cols - 42 * (r + 1)) 41) as [Wr | Wr].
    + (* the row is full: the box starts row [q + 1] *)
      assert (Er : r = k - 1) by lia. subst r.
      replace (0 + 41 + 1) with (42 * (0 + 1)) by lia.
      replace (Y + 7 * q + 6 + 1) with (Y + 7 * (q + 1)) by lia.
      try replace (Z.max 6 0) with 6 by lia.
      cbn [fold_left].
      match goal with |- fold_left _ _ ?a = _ =>
        replace a with (Y + 7 * (q + 1) + 5) by lia end.
      rewrite (IH (q + 1) 0 ltac:(lia) ltac:(lia)).
      do 4 f_equal. lia.
    + (* the box joins row [q] *)
      assert (Er : r + 1 < k) by lia.
      replace (42 * (r + 1) + 41 + 1) with (42 * (r + 1 + 1)) by lia.
      try replace (Z.max 6 6) with 6 by lia.
      cbn [fold_left].
      match goal with |- fold_left _ _ ?a = _ =>
        replace a with (Y + 7 * q + 5) by lia end.
      rewrite (IH q (r + 1) ltac:(lia) ltac:(lia)).
      do 4 f_equal. lia.
Qed.


Lemma fold_layout_pass_cons (l : BoxLayout) (b : Box) (bs : list Box) (acc : Z) :
  fold_left (fun m '(y, _, h) => Z.max m (y + h - 1)) (layout_pass l (b :: bs)) acc =
  fold_left (fun m '(y, _, h) => Z.max m (y + h - 1)) (layout_pass (fst (position l b)) bs)
    (Z.max acc (fst (snd (position l b)) + fst (compute_size b) - 1)).
Proof. cbn [layout_pass]. destruct (position l b) as [l' [y x]]. reflexivity. Qed.

Lemma position_wrap (l : BoxLayout) (b : Box) (h w : Z) :
  compute_size b = (h, w) -> bl_cols l - bl_x l < w ->
  position l b =
  (mkBoxLayout (bl_lines l) (bl_cols l) (bl_padding l) (0 + w + bl_padding l)
     (bl_y l + bl_max_row_height l + bl_padding l) (Z.max h 0),
   (bl_y l + bl_max_row_height l + bl_padding l, 0)).
Proof.
  intros Cs Wr. unfold position. rewrite Cs.
  destruct (Z.ltb_spec (bl_cols l - bl_x l) w); [reflexivity | lia].
Qed.

Lemma position_same_row (l : BoxLayout) (b : Box) (h w : Z) :
  compute_size b = (h, w) -> w <= bl_cols l - bl_x l ->
  position l b =
  (mkBoxLayout (bl_lines l) (bl_cols l) (bl_padding l) (bl_x l + w + bl_padding l)
     (bl_y l) (Z.max h (bl_max_row_height l)), (bl_y l, bl_x l)).
Proof.
  intros Cs Wr. unfold position. rewrite Cs.
  destruct (Z.ltb_spec (bl_cols l - bl_x l) w); [lia | reflexivity].
Qed.

(** Closes [fold_left F (layout_pass l1 xs) a1 = fold_left F (layout_pass l2 xs) a2]
    by arithmetic on the layout fields and the accumulators. *)
Ltac align_fold :=
  match goal with
  | |- fold_left ?F (layout_pass ?l1 ?xs) ?a1 = fold_left ?F (layout_pass ?l2 ?xs) ?a2 =>
      replace l1 with l2;
      [ replace a1 with a2; [reflexivity |]
      | ];
      unfold new_layout, METRICS_PADDING; cbn [fst snd bl_lines bl_cols bl_padding bl_x bl_y
        bl_max_row_height compute_size get_height get_width box_kind border zero_metrics
        List.length Z.of_nat Pos.of_succ_nat Pos.succ];
      [ lia | f_equal; lia ]
  end.

Lemma map_boxes_size (f : nat -> Box) (l : list nat) :
  (forall i, compute_size (f i) = (6, 41)) ->
  Forall (fun b => compute_size b = (6, 41)) (map f l).
Proof.
  intros Hf. apply Forall_forall. intros b Hin.
  apply in_map_iff in Hin. destruct Hin as [i [<- _]]. apply Hf.
Qed.

(** For [w >= 1] workers on a terminal of at least 41 columns, the
    [BoxLayout] pass of [_display_metrics] fits [k = (cols + 1) // 42]
    metric boxes per row (41 columns each plus one of padding), and the
    last occupied row is [7 * ((w - 1) // k) + 5], shifted down by
    [banner_height + 1] when there is a banner. *)
Theorem packed_last_row_formula (w : nat) (b cols rows : Z) :
  (1 <= w)%nat -> 0 <= b -> 41 <= cols ->
  packed_last_row w b cols rows =
  (if 0 <? b then b + 1 else 0) + 7 * ((Z.of_nat w - 1) / ((cols + 1) / 42)) + 5.
Proof.
  intros Hw Hb Hc.
  assert (Hk : 1 <= (cols + 1) / 42).
  { apply (Z.div_le_mono 42 (cols + 1) 42); lia. }
  destruct w as [| w]; [lia |].
  set (f := fun i => mkBox (MetricKind (zero_metrics i)) true (Some "Worker"%string)).
  assert (Hrest := map_boxes_size f (seq 1 w) (fun i => eq_refl)).
  assert (Hlen : Z.of_nat (List.length (map f (seq 1 w))) = Z.of_nat w)
    by (rewrite length_map, length_seq; reflexivity).
  pose proof (pack_metric_rows cols (if 0 <? b then b + 1 else 0) rows
                (map f (seq 1 w)) Hk Hrest 0 0 ltac:(lia) ltac:(lia)) as P.
  rewrite Hlen in P.
  replace (Z.of_nat (S w) - 1) with (0 * ((cols + 1) / 42) + 0 + Z.of_nat w) by lia.
  rewrite <- P. clear P.
  unfold packed_last_row, display_layout, last_occupied_row, banner_box, worker_boxes.
  change (seq 0 (S w)) with (0%nat :: seq 1 w). rewrite map_cons. fold f.
  assert (Sf : compute_size (f 0%nat) = (6, 41)) by reflexivity.
  destruct (Z.ltb_spec 0 b) as [Bp | Bn].
  - cbn [display_boxes].
    set (bb := mkBox (BannerKind cols b (repeat ""%string (Z.to_nat b))) false None).
    assert (Sb : compute_size bb = (b, cols)) by reflexivity.
    rewrite fold_layout_pass_cons.
    rewrite (position_same_row _ bb b cols Sb) by (cbn; lia). cbn [fst snd].
    rewrite fold_layout_pass_cons.
    rewrite (position_wrap _ (f 0%nat) 6 41 Sf) by (cbn; unfold METRICS_PADDING; lia).
    cbn [fst snd]. rewrite Sb. change (compute_size (f 0%nat)) with (6, 41).
    align_fold.
  - assert (B0 : b = 0) by lia. subst b. cbn [display_boxes].
    rewrite fold_layout_pass_cons.
    rewrite (position_same_row _ (f 0%nat) 6 41 Sf) by (cbn; lia).
    cbn [fst snd]. change (compute_size (f 0%nat)) with (6, 41).
    align_fold.
Qed.

Lemma packed_last_row_formula_witness :
  packed_last_row 5 7 200 24 =
  (if 0 <? 7 then 7 + 1 else 0) + 7 * ((Z.of_nat 5 - 1) / ((200 + 1) / 42)) + 5.
Proof. apply (packed_last_row_formula 5 7 200 24); lia. Defined.

Lemma position_keeps_screen (l : BoxLayout) (b : Box) :
  bl_lines (fst (position l b)) = bl_lines l /\ bl_cols (fst (position l b)) = bl_cols l.
Proof.
  unfold position. destruct (compute_size b) as [h w].
  destruct (bl_cols l - bl_x l <? w); split; reflexivity.
Qed.

(** With positive box sizes, the checked pass succeeds with the unchecked
    positions exactly when every placed rectangle passes [mvwin]. *)
Lemma layout_pass_checked_rects (boxes : list Box) :
  Forall (fun b => 0 < fst (compute_size b) /\ 0 < snd (compute_size b)) boxes ->
  forall l,
    layout_pass_checked l boxes =
    if forallb (fun '(y, x, h, w) => mvwin_ok (bl_lines l) (bl_cols l) y x h w)
         (layout_rects l boxes)
    then Ok (layout_pass l boxes) else Err CursesError.
Proof.
  induction boxes as [| b bs IH]; intros Hs l; [reflexivity |].
  inversion Hs as [| ? ? [H0 W0] Hs']; subst.
  rewrite layout_rects_cons.
  destruct (position_keeps_screen l b) as [Kl Kc].
  cbn [layout_pass_checked layout_pass].
  destruct (position l b) as [l' [y x]] eqn:P. cbn [fst] in Kl, Kc.
  unfold window_size.
  destruct (compute_size b) as [h w] eqn:Cs. cbn [fst snd] in *.
  destruct (Z.eqb_spec h 0); [lia |]. destruct (Z.eqb_spec w 0); [lia |].
  cbn [forallb].
  destruct (mvwin_ok (bl_lines l) (bl_cols l) y x h w); cbn [andb]; [| reflexivity].
  rewrite (IH Hs' l'), Kl, Kc.
  destruct (forallb _ (layout_rects l' bs)); reflexivity.
Qed.

Lemma layout_rects_sizes (Q : Z * Z -> Prop) (boxes : list Box) :
  Forall (fun b => Q (compute_size b)) boxes ->
  forall l, Forall (fun '(_, _, h, w) => Q (h, w)) (layout_rects l boxes).
Proof.
  induction boxes as [| b bs IH]; intros Hq l; [constructor |].
  inversion Hq as [| ? ? Q0 Hq']; subst.
  rewrite layout_rects_cons. destruct (position l b) as [l' [y x]].
  constructor; [| exact (IH Hq' l')].
  destruct (compute_size b) as [h w]. exact Q0.
Qed.

Lemma layout_rects_proj (l : BoxLayout) (boxes : list Box) :
  map (fun '(y, x, h, _) => (y, x, h)) (layout_rects l boxes) = layout_pass l boxes.
Proof.
  revert l. induction boxes as [| b bs IH]; intros l; [reflexivity |].
  rewrite layout_rects_cons. cbn [layout_pass].
  destruct (position l b) as [l' [y x]]. cbn [map]. rewrite IH. reflexivity.
Qed.

Lemma fold_max_le (ps : list (Z * Z * Z)) :
  forall acc B,
    fold_left (fun m '(y, _, h) => Z.max m (y + h - 1)) ps acc <= B <->
    acc <= B /\ Forall (fun '(y, _, h) => y + h - 1 <= B) ps.
Proof.
  induction ps as [| [[y x] h] ps IH]; intros acc B; cbn [fold_left].
  - split; [intros H; split; [exact H | constructor] | intros [H _]; exact H].
  - rewrite IH, Z.max_lub_iff, Forall_cons_iff. tauto.
Qed.

Lemma display_boxes_sizes (w : nat) (b cols : Z) :
  0 <= b -> 41 <= cols ->
  Forall (fun bx => 0 < fst (compute_size bx) /\ 0 < snd (compute_size bx) /\
                    snd (compute_size bx) <= cols)
    (display_boxes (banner_box cols b) (worker_boxes w)).
Proof.
  intros Hb Hc.
  assert (Hw : Forall (fun bx => 0 < fst (compute_size bx) /\ 0 < snd (compute_size bx) /\
                                 snd (compute_size bx) <= cols) (worker_boxes w)).
  { eapply Forall_impl;
      [| apply (map_boxes_size
                  (fun i => mkBox (MetricKind (zero_metrics i)) true (Some "Worker"%string))
                  (seq 0 w) (fun i => eq_refl))].
    intros bx ->. cbn. lia. }
  unfold banner_box. destruct (Z.ltb_spec 0 b); cbn [display_boxes]; [| exact Hw].
  constructor; [cbn; lia | exact Hw].
Qed.

(** With mvwin checked, the [BoxLayout] pass of [_display_metrics] (for
    [w >= 1] workers, a banner of [b >= 0] rows and a screen of at least
    41 columns) succeeds exactly when the packed layout's last row
    [(b + 1 if b > 0) + 7 * ((w - 1) // ((cols + 1) // 42)) + 5] lies on the
    screen: then it places the boxes as the unchecked pass does, with that
    last occupied row. Otherwise some [set_position] raises a curses error. *)
Theorem display_layout_fits_screen (w : nat) (b cols rows : Z) :
  (1 <= w)%nat -> 0 <= b -> 41 <= cols -> 0 <= rows ->
  let F := (if 0 <? b then b + 1 else 0) + 7 * ((Z.of_nat w - 1) / ((cols + 1) / 42)) + 5 in
  (F < rows ->
   display_layout_checked rows cols (banner_box cols b) (worker_boxes w) =
     Ok (display_layout rows cols (banner_box cols b) (worker_boxes w)) /\
   last_occupied_row (display_layout rows cols (banner_box cols b) (worker_boxes w)) = F) /\
  (rows <= F ->
   display_layout_checked rows cols (banner_box cols b) (worker_boxes w) = Err CursesError).
Proof.
  intros Hw Hb Hc Hr F.
  pose proof (packed_last_row_formula w b cols rows Hw Hb Hc) as Hf.
  fold F in Hf. unfold packed_last_row in Hf.
  pose proof (display_boxes_sizes w b cols Hb Hc) as Hs.
  set (boxes := display_boxes (banner_box cols b) (worker_boxes w)) in *.
  set (l0 := new_layout rows cols METRICS_PADDING).
  assert (Hpos : Forall (fun '(y, x, h, wd) => 0 <= y /\ 0 <= x /\ (wd <= cols -> x + wd <= cols))
                   (layout_rects l0 boxes)).
  { apply (layout_rects_in_bounds boxes ltac:(eapply Forall_impl; [| exact Hs]; cbn beta; lia) l0);
      cbn; unfold METRICS_PADDING; lia. }
  assert (Hsz : Forall (fun '(_, _, h, wd) => 0 < h /\ 0 < wd /\ wd <= cols) (layout_rects l0 boxes)).
  { apply (layout_rects_sizes (fun '(h, wd) => 0 < h /\ 0 < wd /\ wd <= cols)).
    eapply Forall_impl; [| exact Hs]. intros bx Hbx. cbn beta in Hbx.
    destruct (compute_size bx) as [h wd]. cbn [fst snd] in Hbx |- *. lia. }
  unfold display_layout_checked, display_layout. fold boxes. fold l0.
  unfold display_layout in Hf. fold boxes in Hf. fold l0 in Hf.
  rewrite (layout_pass_checked_rects boxes ltac:(eapply Forall_impl; [| exact Hs]; cbn beta; tauto) l0).
  change (bl_lines l0) with rows. change (bl_cols l0) with cols.
  unfold last_occupied_row in Hf.
  rewrite <- (layout_rects_proj l0 boxes) in Hf |- *.
  split.
  - intros HF.
    pose proof (fold_max_le (map (fun '(y, x, h, _) => (y, x, h)) (layout_rects l0 boxes))
                  (-1) (rows - 1)) as Hm.
    rewrite Hf in Hm. destruct (proj1 Hm ltac:(lia)) as [_ Hle].
    rewrite Forall_map in Hle.
    assert (G : forallb (fun '(y, x, h, wd) => mvwin_ok rows cols y x h wd)
                  (layout_rects l0 boxes) = true).
    { apply forallb_forall. intros [[[y x] h] wd] Hin.
      rewrite Forall_forall in Hle, Hpos, Hsz.
      specialize (Hle _ Hin). specialize (Hpos _ Hin). specialize (Hsz _ Hin).
      cbn beta iota in Hle, Hpos, Hsz. unfold mvwin_ok.
      apply andb_true_intro; split; [apply andb_true_intro; split;
        [apply andb_true_intro; split |] |]; apply Z.leb_le; lia. }
    rewrite G. split; [reflexivity | exact Hf].
  - intros HF.
    destruct (forallb _ (layout_rects l0 boxes)) eqn:G; [| reflexivity].
    exfalso.
    assert (Hle : Forall (fun '(y, _, h) => y + h - 1 <= rows - 1)
                    (map (fun '(y, x, h, _) => (y, x, h)) (layout_rects l0 boxes))).
    { rewrite Forall_map, Forall_forall. intros [[[y x] h] wd] Hin.
      rewrite forallb_forall in G. specialize (G _ Hin). cbn beta iota in G.
      unfold mvwin_ok in G. rewrite !andb_true_iff, !Z.leb_le in G. lia. }
    pose proof (proj2 (fold_max_le _ (-1) (rows - 1)) (conj (ltac:(lia) : -1 <= rows - 1) Hle)) as Hm.
    rewrite Hf in Hm. lia.
Qed.

Lemma display_layout_fits_screen_witness :
  display_layout_checked 24 200 (banner_box 200 7) (worker_boxes 5) =
    Ok (display_layout 24 200 (banner_box 200 7) (worker_boxes 5)) /\
  last_occupied_row (display_layout 24 200 (banner_box 200 7) (worker_boxes 5)) = 20 /\
  display_layout_checked 12 80 None (worker_boxes 2) = Err CursesError.
Proof.
  split; [| split].
  - exact (proj1 (proj1 (display_layout_fits_screen 5 7 200 24 ltac:(lia) ltac:(lia)
                           ltac:(lia) ltac:(lia)) ltac:(vm_compute; reflexivity))).
  - exact (proj2 (proj1 (display_layout_fits_screen 5 7 200 24 ltac:(lia) ltac:(lia)
                           ltac:(lia) ltac:(lia)) ltac:(vm_compute; reflexivity))).
  - exact (proj2 (display_layout_fits_screen 2 0 80 12 ltac:(lia) ltac:(lia)
                    ltac:(lia) ltac:(lia)) ltac:(vm_compute; discriminate)).
Defined.

(** * Properties of [vulnscan.py] *)

Section VulnScanProps.

Variables Version Plugin Theme : Type.
Variable site_version : string -> Version.
Variable site_plugins : string -> list Plugin.
Variable site_themes : string -> list Theme.
Variable load_plugin_directory : string -> list Plugin.
Variable load_theme_directory : string -> list Theme.

Local Abbreviation Call := (ScanCall Version Plugin Theme).
Local Abbreviation site := (scan_site Version Plugin Theme site_version site_plugins site_themes).
Local Abbreviation run := (invoke Version Plugin Theme site_version site_plugins site_themes
                         load_plugin_directory load_theme_directory).

Lemma filter_flat_map (f : Call -> bool) (g : string -> list Call) (l : list string) :
  filter f (flat_map g l) = flat_map (fun x => filter f (g x)) l.
Proof.
  induction l as [| x l IH]; [reflexivity |].
  cbn [flat_map]. rewrite filter_app, IH. reflexivity.
Qed.

Lemma flat_map_pointwise {B} (g1 g2 : string -> list B) (l : list string) :
  (forall x, g1 x = g2 x) -> flat_map g1 l = flat_map g2 l.
Proof. intros H. induction l as [| x l IH]; cbn; [reflexivity | rewrite H, IH; reflexivity]. Qed.

Lemma flat_map_singleton {B} (f : string -> B) (l : list string) :
  flat_map (fun x => [f x]) l = map f l.
Proof. induction l as [| x l IH]; cbn; [reflexivity | rewrite IH; reflexivity]. Qed.

Lemma flat_map_nil {B} (l : list string) : flat_map (fun _ => @nil B) l = [].
Proof. induction l; cbn; auto. Qed.

Lemma flat_map_map {B C} (f : B -> C) (g : string -> list B) (l : list string) :
  flat_map (fun x => map f (g x)) l = map f (flat_map g l).
Proof.
  induction l as [| x l IH]; cbn; [reflexivity |]. rewrite IH, map_app. reflexivity.
Qed.

Lemma filter_map_all {B} (f : Call -> bool) (c : B -> Call) (xs : list B) :
  (forall x, f (c x) = true) -> filter f (map c xs) = map c xs.
Proof. intros H. induction xs as [| x xs IH]; cbn; [reflexivity | rewrite H, IH; reflexivity]. Qed.

Lemma filter_map_none {B} (f : Call -> bool) (c : B -> Call) (xs : list B) :
  (forall x, f (c x) = false) -> filter f (map c xs) = [].
Proof. intros H. induction xs as [| x xs IH]; cbn; [reflexivity | rewrite H, IH; reflexivity]. Qed.

Lemma site_paths_calls (f : Call -> bool) (config : VulnScanConfig) :
  filter f (flat_map site (trailing_arguments config))
  ++ filter f (match stdin_entries config with
               | Some entries => flat_map site entries
               | None => []
               end)
  = flat_map (fun x => filter f (site x)) (site_paths config).
Proof.
  unfold site_paths. destruct (stdin_entries config) as [es |];
    rewrite flat_map_app, !filter_flat_map; reflexivity.
Qed.

Ltac split_invoke :=
  intros config; unfold invoke; cbn [snd];
  rewrite !filter_app, app_assoc, site_paths_calls, !filter_flat_map;
  unfold scan_site, vuln_scan, scan_plugin_directory, scan_theme_directory,
    scan_plugins, scan_themes.

(** The core scans [invoke] requests, in order: one [scan_core] with the
    version detected for each site path (each trailing argument, then each
    stdin entry), then one for each [--wordpress-path]; plugin and theme
    directories request none. *)
Theorem invoke_core_scans (config : VulnScanConfig) :
  filter (@is_core_scan Version Plugin Theme) (snd (run config)) =
  map (fun p => ScanCore Version Plugin Theme (site_version p))
    (site_paths config ++ wordpress_path config).
Proof.
  revert config. split_invoke.
  rewrite (flat_map_pointwise _ (fun p => [ScanCore Version Plugin Theme (site_version p)])
             (site_paths config)).
  2:{ intros x. cbn [filter is_core_scan].
      rewrite filter_app, !filter_map_none by reflexivity. reflexivity. }
  rewrite (flat_map_pointwise _ (fun p => [ScanCore Version Plugin Theme (site_version p)])
             (wordpress_path config)) by reflexivity.
  rewrite (flat_map_pointwise _ (fun _ => []) (plugin_directory config))
    by (intros x; apply filter_map_none; reflexivity).
  rewrite (flat_map_pointwise _ (fun _ => []) (theme_directory config))
    by (intros x; apply filter_map_none; reflexivity).
  rewrite !flat_map_singleton, !flat_map_nil, !app_nil_r, map_app. reflexivity.
Qed.

(** The plugin scans [invoke] requests, in order: every plugin of each site
    path (trailing arguments, then stdin entries), then every plugin loaded
    from each [--plugin-directory]; a [--wordpress-path] (core only) and a
    [--theme-directory] request none. *)
Theorem invoke_plugin_scans (config : VulnScanConfig) :
  filter (@is_plugin_scan Version Plugin Theme) (snd (run config)) =
  map (ScanPlugin Version Plugin Theme)
    (flat_map site_plugins (site_paths config)
     ++ flat_map load_plugin_directory (plugin_directory config)).
Proof.
  revert config. split_invoke.
  rewrite (flat_map_pointwise _ (fun p => map (ScanPlugin Version Plugin Theme) (site_plugins p))
             (site_paths config)).
  2:{ intros x. cbn [filter is_plugin_scan].
      rewrite filter_app, filter_map_all, filter_map_none, app_nil_r by reflexivity.
      reflexivity. }
  rewrite (flat_map_pointwise _ (fun _ => []) (wordpress_path config)) by reflexivity.
  rewrite (flat_map_pointwise _ (fun d => map (ScanPlugin Version Plugin Theme)
                                          (load_plugin_directory d)) (plugin_directory config))
    by (intros x; apply filter_map_all; reflexivity).
  rewrite (flat_map_pointwise _ (fun _ => []) (theme_directory config))
    by (intros x; apply filter_map_none; reflexivity).
  rewrite !flat_map_map, !flat_map_nil, app_nil_r, map_app. reflexivity.
Qed.

(** The theme scans [invoke] requests, in order: every theme of each site
    path (trailing arguments, then stdin entries), then every theme loaded
    from each [--theme-directory]; a [--wordpress-path] and a
    [--plugin-directory] request none. *)
Theorem invoke_theme_scans (config : VulnScanConfig) :
  filter (@is_theme_scan Version Plugin Theme) (snd (run config)) =
  map (ScanTheme Version Plugin Theme)
    (flat_map site_themes (site_paths config)
     ++ flat_map load_theme_directory (theme_directory config)).
Proof.
  revert config. split_invoke.
  rewrite (flat_map_pointwise _ (fun p => map (ScanTheme Version Plugin Theme) (site_themes p))
             (site_paths config)).
  2:{ intros x. cbn [filter is_theme_scan].
      rewrite filter_app, filter_map_none, filter_map_all by reflexivity.
      reflexivity. }
  rewrite (flat_map_pointwise _ (fun _ => []) (wordpress_path config)) by reflexivity.
  rewrite (flat_map_pointwise _ (fun _ => []) (plugin_directory config))
    by (intros x; apply filter_map_none; reflexivity).
  rewrite (flat_map_pointwise _ (fun d => map (ScanTheme Version Plugin Theme)
                                          (load_theme_directory d)) (theme_directory config))
    by (intros x; apply filter_map_all; reflexivity).
  rewrite !flat_map_map, !flat_map_nil, map_app. reflexivity.
Qed.

End VulnScanProps.
